(** * enviroplus_exporter: the per-sensor health state machine

    A shallow embedding of [enviroplus_exporter.py].  The module is a set of
    global flags and counters (one pair per sensor channel), a set of
    Prometheus gauges and histograms, and eight per-cycle update functions
    that the main loop calls in a fixed order.

    Modelling choices.
    - Python [float] values are real numbers ([R]): rounding error of
      binary64 arithmetic is not modelled.  Python [int] values are [Z].
    - The module globals live in one [state] record that is threaded through
      every function by the [py] monad.  An exception does not roll the
      globals back, so a computation yields a [result] together with the
      state it leaves behind.
    - A driver call is an input of the cycle: each update function receives
      the [result] of the driver calls it makes.
    - Three history fields ([stores], [errors], [i2c_resets]) record every
      store to a counter, every [logging.error] and every [reset_i2c], so
      that statements about what happens inside one cycle can be made. *)

From Stdlib Require Import ZArith Reals List Bool Ascii String Lra Lia.
Import ListNotations.

Local Open Scope Z_scope.

(** ** Exceptions *)

Inductive exn : Type :=
| OSError
| RuntimeError
| ValueError
| ZeroDivisionError
| TypeError
| NameError
| UnboundLocalError
| pmsReadTimeoutError
| pmsChecksumError
| pmsSerialTimoutError.

(** In Python 3 [IOError] is another name of [OSError]. *)
Definition IOError : exn := OSError.

Definition exn_eq_dec (a b : exn) : {a = b} + {a <> b}.
Proof. decide equality. Defined.

(** [isinstance e classes]: the test an [except (C1, ..., Cn):] clause makes. *)
Definition isinstance (e : exn) (classes : list exn) : bool :=
  existsb (fun c => if exn_eq_dec e c then true else false) classes.

(** ** Module globals *)

Inductive flag : Type :=
| o2Active | co2Active | tempActive | pressActive
| humActive | gasActive | partActive | lightActive.

Inductive counter : Type :=
| o2Count | co2Count | tempCount | pressCount
| humCount | gasCount | partCount | lightCount.

Inductive gauge : Type :=
| TEMPERATURE | PRESSURE | HUMIDITY | OXIDISING | REDUCING | NH3
| CO2 | O2 | LUX | PROXIMITY | PM1 | PM25 | PM10.

Inductive histogram : Type :=
| OXIDISING_HIST | REDUCING_HIST | NH3_HIST | CO2_HIST | O2_HIST
| PM1_HIST | PM25_HIST | PM10_HIST.

Inductive tuning : Type :=
| _base_ox | _base_red | _base_nh3 | _ox_factor | _red_factor | _nh3_factor.

Definition flag_eq_dec (a b : flag) : {a = b} + {a <> b}.
Proof. decide equality. Defined.

Definition counter_eq_dec (a b : counter) : {a = b} + {a <> b}.
Proof. decide equality. Defined.

Definition gauge_eq_dec (a b : gauge) : {a = b} + {a <> b}.
Proof. decide equality. Defined.

Definition histogram_eq_dec (a b : histogram) : {a = b} + {a <> b}.
Proof. decide equality. Defined.

Definition MAXCOUNT : Z := 2.
Definition MINCOUNT : Z := 0.
Definition DEFAULT_READING : Z := 0.

Record state : Type := mkState {
  flags : flag -> bool;
  counters : counter -> Z;
  tunings : tuning -> R;
  gauges : gauge -> R;                  (* Gauge: last write wins *)
  observations : histogram -> list R;   (* Histogram: values observed, oldest first *)
  thermal_zone0 : nat -> Z;             (* content of the sysfs file at the k-th read *)
  cpu_reads : nat;                      (* reads of the sysfs file so far *)
  stores : list (counter * Z);          (* every store to a counter, oldest first *)
  errors : list string;                 (* logging.error messages, oldest first *)
  i2c_resets : nat                      (* calls of reset_i2c *)
}.

Definition update {K V : Type} (eq_dec : forall a b : K, {a = b} + {a <> b})
    (m : K -> V) (k : K) (v : V) : K -> V :=
  fun k' => if eq_dec k' k then v else m k'.

(** ** The monad of Python computations *)

Inductive result (A : Type) : Type :=
| Return (a : A)
| Raise (e : exn).
Arguments Return {A} a.
Arguments Raise {A} e.

Definition py (A : Type) : Type := state -> result A * state.

Definition ret {A} (a : A) : py A := fun s => (Return a, s).

Definition raise {A} (e : exn) : py A := fun s => (Raise e, s).

Definition bind {A B} (m : py A) (k : A -> py B) : py B :=
  fun s =>
    match m s with
    | (Return a, s') => k a s'
    | (Raise e, s') => (Raise e, s')
    end.

Declare Scope py_scope.
Delimit Scope py_scope with py.
Notation "x <- m ;; k" := (bind m (fun x => k))
  (at level 100, m at next level, right associativity) : py_scope.
Notation "m ;; k" := (bind m (fun _ => k))
  (at level 100, right associativity) : py_scope.
Local Open Scope py_scope.

(** [try: body / except classes: handler]. *)
Definition try_except {A} (body : py A) (classes : list exn) (handler : py A)
    : py A :=
  fun s =>
    match body s with
    | (Return a, s') => (Return a, s')
    | (Raise e, s') =>
        if isinstance e classes then handler s' else (Raise e, s')
    end.

(** [try: body / except classes: handler / else: orelse]; an exception of
    [orelse] is not caught by the clause. *)
Definition try_except_else {A B} (body : py A) (classes : list exn)
    (handler : py B) (orelse : A -> py B) : py B :=
  fun s =>
    match body s with
    | (Return a, s') => orelse a s'
    | (Raise e, s') =>
        if isinstance e classes then handler s' else (Raise e, s')
    end.

(** [try: body / except: handler], the bare clause that catches everything. *)
Definition try_except_all {A} (body : py A) (handler : py A) : py A :=
  fun s =>
    match body s with
    | (Return a, s') => (Return a, s')
    | (Raise _, s') => handler s'
    end.

(** A call of an external driver whose outcome this cycle is [r]. *)
Definition call {A} (r : result A) : py A := fun s => (r, s).

(** A local variable that may still be unbound when it is read. *)
Definition local {A} (v : option A) : py A :=
  match v with
  | Some a => ret a
  | None => raise UnboundLocalError
  end.

(** ** Access to the globals *)

Definition load_flag (f : flag) : py bool := fun s => (Return (flags s f), s).

Definition store_flag (f : flag) (b : bool) : py unit := fun s =>
  (Return tt,
   mkState (update flag_eq_dec (flags s) f b) (counters s) (tunings s)
     (gauges s) (observations s) (thermal_zone0 s) (cpu_reads s)
     (stores s) (errors s) (i2c_resets s)).

Definition load (c : counter) : py Z := fun s => (Return (counters s c), s).

Definition store (c : counter) (v : Z) : py unit := fun s =>
  (Return tt,
   mkState (flags s) (update counter_eq_dec (counters s) c v) (tunings s)
     (gauges s) (observations s) (thermal_zone0 s) (cpu_reads s)
     (stores s ++ [(c, v)]) (errors s) (i2c_resets s)).

Definition load_tuning (t : tuning) : py R := fun s => (Return (tunings s t), s).

(** [c += n] and [c -= n] on a global counter. *)
Definition iadd (c : counter) (n : Z) : py unit :=
  v <- load c ;; store c (v + n).

Definition isub (c : counter) (n : Z) : py unit :=
  v <- load c ;; store c (v - n).

(** [Gauge.set] and [Histogram.observe] of prometheus_client. *)
Definition Gauge_set (g : gauge) (v : R) : py unit := fun s =>
  (Return tt,
   mkState (flags s) (counters s) (tunings s)
     (update gauge_eq_dec (gauges s) g v) (observations s)
     (thermal_zone0 s) (cpu_reads s) (stores s) (errors s) (i2c_resets s)).

Definition Histogram_observe (h : histogram) (v : R) : py unit := fun s =>
  (Return tt,
   mkState (flags s) (counters s) (tunings s) (gauges s)
     (update histogram_eq_dec (observations s) h (observations s h ++ [v]))
     (thermal_zone0 s) (cpu_reads s) (stores s) (errors s) (i2c_resets s)).

Definition logging_error (msg : string) : py unit := fun s =>
  (Return tt,
   mkState (flags s) (counters s) (tunings s) (gauges s) (observations s)
     (thermal_zone0 s) (cpu_reads s) (stores s) (errors s ++ [msg])
     (i2c_resets s)).

(** [reset_i2c]: runs [i2cdetect] and sleeps two seconds. *)
Definition reset_i2c : py unit := fun s =>
  (Return tt,
   mkState (flags s) (counters s) (tunings s) (gauges s) (observations s)
     (thermal_zone0 s) (cpu_reads s) (stores s) (errors s)
     (S (i2c_resets s))).

(** [get_cpu_temperature]: reads the sysfs file, [int(temp) / 1000.0]. *)
Definition get_cpu_temperature : py R := fun s =>
  (Return (IZR (thermal_zone0 s (cpu_reads s)) / 1000)%R,
   mkState (flags s) (counters s) (tunings s) (gauges s) (observations s)
     (thermal_zone0 s) (S (cpu_reads s)) (stores s) (errors s)
     (i2c_resets s)).

(** ** Arithmetic of Python floats *)

(** [a / b]: true division raises [ZeroDivisionError] on a zero divisor. *)
Definition truediv (a b : R) : py R :=
  if Req_dec_T b 0 then raise ZeroDivisionError else ret (a / b)%R.

(** [math.log10]: a non-positive argument is a math domain error. *)
Definition log10 (x : R) : py R :=
  if Rle_dec x 0 then raise ValueError else ret (ln x / ln 10)%R.

(** [10 ** y] on floats. *)
Definition pow10 (y : R) : R := Rpower 10 y.

(** Rounding to the nearest integer, ties to the even one. *)
Definition round_half_even (x : R) : Z :=
  let n := Zfloor x in
  let d := (x - IZR n)%R in
  if Rlt_dec d (1 / 2) then n
  else if Rlt_dec (1 / 2) d then n + 1
  else if Z.even n then n else n + 1.

(** [round(x, ndigits)]. *)
Definition round (x : R) (ndigits : nat) : R :=
  (IZR (round_half_even (x * 10 ^ ndigits)) / 10 ^ ndigits)%R.

(** [sum(l)] and [float(len(l))]. *)
Definition sum (l : list R) : R := fold_left Rplus l 0%R.

Definition float_len (l : list R) : R := INR (List.length l).

(** Truth value of [args.factor]: [None] and [0.0] are false. *)
Definition truthy (factor : option R) : option R :=
  match factor with
  | Some f => if Req_dec_T f 0 then None else Some f
  | None => None
  end.

(** The tuple of every [except] clause of the I2C channels. *)
Definition sensor_errors : list exn :=
  [IOError; RuntimeError; OSError; ValueError].

(** ** The update functions *)

Definition get_temperature (factor : option R)
    (bme280_get_temperature : result R) : py unit :=
  active <- load_flag tempActive ;;
  if active then
    raw_temp <-
      try_except
        (v <- call bme280_get_temperature ;; ret (Some v))
        sensor_errors
        (logging_error "Could not get temperature readings. Resetting i2c" ;;
         reset_i2c ;;
         Gauge_set TEMPERATURE 0 ;;
         iadd tempCount 1 ;;
         c <- load tempCount ;;
         (if c >=? MAXCOUNT
          then store tempCount MAXCOUNT ;; store_flag tempActive false
          else ret tt) ;;
         ret None) ;;
    temperature <-
      match truthy factor with
      | Some f =>
          t0 <- get_cpu_temperature ;;
          let cpu_temps := repeat t0 5 in
          cpu_temp <- get_cpu_temperature ;;
          let cpu_temps := tl cpu_temps ++ [cpu_temp] in
          avg_cpu_temp <- truediv (sum cpu_temps) (float_len cpu_temps) ;;
          raw <- local raw_temp ;;
          q <- truediv (avg_cpu_temp - raw)%R f ;;
          ret (raw - q)%R
      | None => local raw_temp
      end ;;
    Gauge_set TEMPERATURE temperature
  else
    Gauge_set TEMPERATURE 0 ;;
    iadd tempCount 1 ;;
    logging_error "Temperature sensor not present or inactive" ;;
    c <- load tempCount ;;
    if c >? MINCOUNT
    then isub tempCount 1
    else store tempCount MINCOUNT ;; store_flag tempActive true.

Definition get_pressure (bme280_get_pressure : result R) : py unit :=
  active <- load_flag pressActive ;;
  if active then
    try_except
      (pressure <- call bme280_get_pressure ;;
       Gauge_set PRESSURE pressure)
      sensor_errors
      (logging_error "Could not get pressure readings. Resetting i2c." ;;
       reset_i2c ;;
       Gauge_set PRESSURE 0 ;;
       iadd pressCount 1 ;;
       c <- load pressCount ;;
       if c >=? MAXCOUNT
       then store pressCount MAXCOUNT ;; store_flag pressActive false
       else ret tt)
  else
    Gauge_set PRESSURE 0 ;;
    logging_error "Pressure sensor not present or inactive" ;;
    c <- load pressCount ;;
    if c >? MINCOUNT
    then isub pressCount 1
    else store pressCount MINCOUNT ;; store_flag pressActive true.

Definition get_humidity (bme280_get_humidity : result R) : py unit :=
  active <- load_flag humActive ;;
  if active then
    try_except
      (humidity <- call bme280_get_humidity ;;
       Gauge_set HUMIDITY humidity)
      sensor_errors
      (logging_error "Could not get humidity readings. Resetting i2c." ;;
       reset_i2c ;;
       Gauge_set HUMIDITY 0 ;;
       iadd humCount 1 ;;
       c <- load humCount ;;
       if c >=? MAXCOUNT
       then store humCount MAXCOUNT ;; store_flag humActive false
       else ret tt)
  else
    Gauge_set HUMIDITY 0 ;;
    logging_error "Humidity sensor not present or inactive" ;;
    c <- load humCount ;;
    if c >? MINCOUNT
    then isub humCount 1
    else store humCount MINCOUNT ;; store_flag humActive true.

(** [calc_ppm]: each of the three conversions sits in its own
    [try ... except ZeroDivisionError]. *)
Definition calc_ppm (ox red nh3 : R) : py (R * R * R) :=
  oxidising <-
    try_except
      (base <- load_tuning _base_ox ;;
       q <- truediv ox base ;;
       k <- load_tuning _ox_factor ;;
       ret (round (q * k) 2))
      [ZeroDivisionError]
      (ret 0%R) ;;
  reducing <-
    try_except
      (base <- load_tuning _base_red ;;
       q <- truediv red base ;;
       l <- log10 q ;;
       k <- load_tuning _red_factor ;;
       ret (round (pow10 l * k) 2))
      [ZeroDivisionError]
      (ret 0%R) ;;
  ammonia <-
    try_except
      (base <- load_tuning _base_nh3 ;;
       q <- truediv nh3 base ;;
       l <- log10 q ;;
       k <- load_tuning _nh3_factor ;;
       ret (round (pow10 l * k) 2))
      [ZeroDivisionError]
      (ret 0%R) ;;
  ret (oxidising, reducing, ammonia).

(** What [gas.read_all()] returns. *)
Record gas_readings : Type := mkGas {
  oxidising : R;
  reducing : R;
  nh3 : R
}.

Definition get_gas (gas_enable_adc : result unit)
    (gas_read_all : result gas_readings) : py unit :=
  active <- load_flag gasActive ;;
  if active then
    try_except_else
      (call gas_enable_adc ;;
       readings <- call gas_read_all ;;
       let ox := oxidising readings in
       let red := reducing readings in
       let nh3 := nh3 readings in
       calc_ppm ox red nh3)
      sensor_errors
      (logging_error "Could not get gas reading. Resetting i2c." ;;
       reset_i2c ;;
       Gauge_set OXIDISING 0 ;;
       Histogram_observe OXIDISING_HIST 0 ;;
       Gauge_set REDUCING 0 ;;
       Histogram_observe REDUCING_HIST 0 ;;
       Gauge_set NH3 0 ;;
       Histogram_observe NH3_HIST 0 ;;
       iadd gasCount 1 ;;
       c <- load gasCount ;;
       if c >=? MAXCOUNT
       then store gasCount MAXCOUNT ;; store_flag gasActive false
       else ret tt)
      (fun ppm =>
         let '(ppm0, ppm1, ppm2) := ppm in
         Gauge_set OXIDISING ppm0 ;;
         Histogram_observe OXIDISING_HIST ppm0 ;;
         Gauge_set REDUCING ppm1 ;;
         Histogram_observe REDUCING_HIST ppm1 ;;
         Gauge_set NH3 ppm2 ;;
         Histogram_observe NH3_HIST ppm2)
  else
    Gauge_set OXIDISING 0 ;;
    Histogram_observe OXIDISING_HIST 0 ;;
    Gauge_set REDUCING 0 ;;
    Histogram_observe REDUCING_HIST 0 ;;
    Gauge_set NH3 0 ;;
    Histogram_observe NH3_HIST 0 ;;
    logging_error "GAS sensor not present or inactive" ;;
    c <- load gasCount ;;
    if c >? MINCOUNT
    then isub gasCount 1
    else store gasCount MINCOUNT ;; store_flag gasActive true.

Definition get_o2 (ioe_input : result R) : py unit :=
  active <- load_flag o2Active ;;
  if active then
    try_except_else
      (adc <- call ioe_input ;;
       let adc := round adc 2 in
       ret adc)
      sensor_errors
      (logging_error "Could not get o2 reading. Resetting i2c." ;;
       reset_i2c ;;
       iadd o2Count 1 ;;
       Gauge_set O2 0 ;;
       Histogram_observe O2_HIST 0 ;;
       c <- load o2Count ;;
       if c >=? MAXCOUNT
       then store o2Count MAXCOUNT ;; store_flag o2Active false
       else ret tt)
      (fun adc =>
         Gauge_set O2 (((adc * 0.212) / 2.0) * 100)%R ;;
         Histogram_observe O2_HIST (((adc * 0.212) / 2.0) * 100)%R)
  else
    Gauge_set O2 0 ;;
    Histogram_observe O2_HIST 0 ;;
    logging_error "O2 sensor not present or inactive" ;;
    c <- load o2Count ;;
    if c >? MINCOUNT
    then isub o2Count 1
    else store o2Count MINCOUNT ;; store_flag o2Active true.

(** What [device.measure()] returns: CO2, temperature, relative humidity
    and a timestamp. *)
Definition scd4x_measurement : Type := (R * R * R * R)%type.

Definition get_co2 (device_measure : result scd4x_measurement) : py unit :=
  active <- load_flag co2Active ;;
  if active then
    try_except_else
      (call device_measure)
      sensor_errors
      (logging_error "Could not get CO2 reading. Resetting i2c." ;;
       reset_i2c ;;
       iadd co2Count 1 ;;
       Gauge_set CO2 0 ;;
       Histogram_observe CO2_HIST 0 ;;
       c <- load co2Count ;;
       if c >=? MAXCOUNT
       then store co2Count MAXCOUNT ;; store_flag co2Active false
       else ret tt)
      (fun m =>
         let '(co2, temperature, relative_humidity, timestamp) := m in
         Gauge_set CO2 co2 ;;
         Histogram_observe CO2_HIST co2)
  else
    Gauge_set CO2 0 ;;
    Histogram_observe CO2_HIST 0 ;;
    logging_error "CO2 sensor not present or inactive" ;;
    c <- load co2Count ;;
    if c >? MINCOUNT
    then isub co2Count 1
    else store co2Count MINCOUNT ;; store_flag co2Active true.

Definition get_light (ltr559_get_lux ltr559_get_proximity : result R)
    : py unit :=
  active <- load_flag lightActive ;;
  if active then
    try_except
      (lux <- call ltr559_get_lux ;;
       prox <- call ltr559_get_proximity ;;
       Gauge_set LUX lux ;;
       Gauge_set PROXIMITY prox)
      sensor_errors
      (logging_error
         "Could not get lux and proximity readings. Resetting i2c." ;;
       reset_i2c ;;
       Gauge_set LUX 0 ;;
       Gauge_set PROXIMITY 0 ;;
       iadd lightCount 1 ;;
       c <- load lightCount ;;
       if c >=? MAXCOUNT
       then store lightCount MAXCOUNT ;; store_flag lightActive false
       else ret tt)
  else
    Gauge_set LUX 0 ;;
    Gauge_set PROXIMITY 0 ;;
    logging_error "Light and Proximity sensors not present or inactive" ;;
    c <- load lightCount ;;
    if c >? MINCOUNT
    then isub lightCount 1
    else store lightCount MINCOUNT ;; store_flag lightActive true.

(** What [pms5003.read()] returns; [pm_ug_per_m3] selects one of the three
    cumulative mass densities, which the sensor reports as integers. *)
Record pms_data : Type := mkPms {
  pm1_0 : Z;
  pm2_5 : Z;
  pm10_0 : Z
}.

Inductive pm_size : Type := size_1_0 | size_2_5 | size_10.

Definition pm_ug_per_m3 (d : pms_data) (size : pm_size) : Z :=
  match size with
  | size_1_0 => pm1_0 d
  | size_2_5 => pm2_5 d
  | size_10 => pm10_0 d
  end.

(** [float(n)], the conversion a gauge or a histogram applies to an [int]. *)
Definition float (n : Z) : R := IZR n.

Definition particulate_errors : list exn :=
  [IOError; pmsReadTimeoutError; pmsChecksumError; pmsSerialTimoutError;
   RuntimeError; OSError; ValueError].

Definition get_particulates (pms5003_read : result pms_data) : py unit :=
  active <- load_flag partActive ;;
  if active then
    try_except_else
      (call pms5003_read)
      particulate_errors
      (logging_error "Could not get particulate matter readings." ;;
       Gauge_set PM1 0 ;;
       Gauge_set PM25 0 ;;
       Gauge_set PM10 0 ;;
       Histogram_observe PM1_HIST 0 ;;
       Histogram_observe PM25_HIST 0 ;;
       Histogram_observe PM10_HIST 0 ;;
       iadd partCount 1 ;;
       c <- load partCount ;;
       if c >=? MAXCOUNT
       then store partCount MAXCOUNT ;; store_flag partActive false
       else ret tt)
      (fun pms_data =>
         Gauge_set PM1 (float (pm_ug_per_m3 pms_data size_1_0)) ;;
         Gauge_set PM25 (float (pm_ug_per_m3 pms_data size_2_5)) ;;
         Gauge_set PM10 (float (pm_ug_per_m3 pms_data size_10)) ;;
         Histogram_observe PM1_HIST (float (pm_ug_per_m3 pms_data size_1_0)) ;;
         Histogram_observe PM25_HIST
           (float (pm_ug_per_m3 pms_data size_2_5
                   - pm_ug_per_m3 pms_data size_1_0)) ;;
         Histogram_observe PM10_HIST
           (float (pm_ug_per_m3 pms_data size_10
                   - pm_ug_per_m3 pms_data size_2_5)))
  else
    Gauge_set PM1 0 ;;
    Gauge_set PM25 0 ;;
    Gauge_set PM10 0 ;;
    Histogram_observe PM1_HIST 0 ;;
    Histogram_observe PM25_HIST 0 ;;
    Histogram_observe PM10_HIST 0 ;;
    logging_error "Particulate sensors not present or inactive" ;;
    c <- load partCount ;;
    if c >? MINCOUNT
    then isub partCount 1
    else store partCount MINCOUNT ;; store_flag partActive true.

(** ** Start-up *)

(** [a, b, c = v] with [v] a single [bool] or [int]: the right-hand side is
    not iterable, so the statement raises [TypeError] before any target is
    bound. *)
Definition unpack_scalar {A} (v : A) : py (A * A * A) := raise TypeError.

(** The set-up of the IO expander that carries the O2 sensor. *)
Definition init_ioe (IOE_setup : result unit) : py unit :=
  try_except_all
    (call IOE_setup)
    (store_flag o2Active false ;;
     store o2Count MAXCOUNT ;;
     logging_error "O2 sensor cannot be initialised").

Definition init_bme280 (BME280_new : result unit) : py unit :=
  try_except_all
    (call BME280_new)
    (t <- unpack_scalar false ;;
     let '(a, b, c) := t in
     store_flag tempActive a ;;
     store_flag pressActive b ;;
     store_flag humActive c ;;
     t <- unpack_scalar MAXCOUNT ;;
     let '(a, b, c) := t in
     store tempCount a ;;
     store pressCount b ;;
     store humCount c ;;
     logging_error
       "Temperature, Pressure, Humidity sensors not present or inactive").

Definition init_pms5003 (PMS5003_new : result unit) : py unit :=
  try_except_all
    (call PMS5003_new)
    (store_flag partActive false ;;
     store partCount MAXCOUNT ;;
     logging_error "Particulate sensors not present or inactive").

Definition init_scd4x (SCD4X_setup : result unit) : py unit :=
  try_except_all
    (call SCD4X_setup)
    (store_flag co2Active false ;;
     logging_error "CO2 sensor cannot be initialised").

(** The globals as the assignments at the top of the module leave them;
    a gauge of prometheus_client starts at 0. *)
Definition boot (thermal : nat -> Z) : state :=
  mkState
    (fun _ => true)
    (fun _ => MINCOUNT)
    (fun t =>
       match t with
       | _base_ox => 108706
       | _base_red => 396941
       | _base_nh3 => 365918
       | _ox_factor => 0.01
       | _red_factor => 2.0
       | _nh3_factor => 1.7
       end%R)
    (fun _ => 0%R)
    (fun _ => [])
    thermal 0%nat [] [] 0%nat.

(** Outcome of the four device set-ups of one process start. *)
Record devices : Type := mkDevices {
  IOE_setup : result unit;
  BME280_new : result unit;
  PMS5003_new : result unit;
  SCD4X_setup : result unit
}.

(** Everything the process does before the first poll cycle. *)
Definition startup (d : devices) : py unit :=
  init_ioe (IOE_setup d) ;;
  init_bme280 (BME280_new d) ;;
  init_pms5003 (PMS5003_new d) ;;
  init_scd4x (SCD4X_setup d).

(** ** The poll loop *)

(** Outcome of every driver call one cycle can make. *)
Record drivers : Type := mkDrivers {
  bme280_get_temperature : result R;
  bme280_get_pressure : result R;
  bme280_get_humidity : result R;
  ltr559_get_lux : result R;
  ltr559_get_proximity : result R;
  gas_enable_adc : result unit;
  gas_read_all : result gas_readings;
  ioe_input : result R;
  pms5003_read : result pms_data;
  device_measure : result scd4x_measurement
}.

(** One pass of the body of [while True]; the verbose log of the registry
    at the end of the pass only reads the gauges and is left out. *)
Definition poll (factor : option R) (enviro : bool) (d : drivers) : py unit :=
  get_temperature factor (bme280_get_temperature d) ;;
  get_pressure (bme280_get_pressure d) ;;
  get_humidity (bme280_get_humidity d) ;;
  get_light (ltr559_get_lux d) (ltr559_get_proximity d) ;;
  if negb enviro then
    get_gas (gas_enable_adc d) (gas_read_all d) ;;
    get_o2 (ioe_input d) ;;
    get_particulates (pms5003_read d) ;;
    get_co2 (device_measure d)
  else ret tt.

(** The loop over the cycles whose driver outcomes are given; an exception
    that leaves [poll] leaves the loop. *)
Fixpoint main_loop (factor : option R) (enviro : bool) (ds : list drivers)
    : py unit :=
  match ds with
  | [] => ret tt
  | d :: ds' => poll factor enviro d ;; main_loop factor enviro ds'
  end.

(** ** Channels *)

Inductive channel : Type :=
| ch_temperature | ch_pressure | ch_humidity | ch_light
| ch_gas | ch_o2 | ch_particulates | ch_co2.

Definition active_of (ch : channel) : flag :=
  match ch with
  | ch_temperature => tempActive
  | ch_pressure => pressActive
  | ch_humidity => humActive
  | ch_light => lightActive
  | ch_gas => gasActive
  | ch_o2 => o2Active
  | ch_particulates => partActive
  | ch_co2 => co2Active
  end.

Definition count_of (ch : channel) : counter :=
  match ch with
  | ch_temperature => tempCount
  | ch_pressure => pressCount
  | ch_humidity => humCount
  | ch_light => lightCount
  | ch_gas => gasCount
  | ch_o2 => o2Count
  | ch_particulates => partCount
  | ch_co2 => co2Count
  end.

Definition gauges_of (ch : channel) : list gauge :=
  match ch with
  | ch_temperature => [TEMPERATURE]
  | ch_pressure => [PRESSURE]
  | ch_humidity => [HUMIDITY]
  | ch_light => [LUX; PROXIMITY]
  | ch_gas => [OXIDISING; REDUCING; NH3]
  | ch_o2 => [O2]
  | ch_particulates => [PM1; PM25; PM10]
  | ch_co2 => [CO2]
  end.

(** The per-cycle update of a channel. *)
Definition get (ch : channel) (factor : option R) (d : drivers) : py unit :=
  match ch with
  | ch_temperature => get_temperature factor (bme280_get_temperature d)
  | ch_pressure => get_pressure (bme280_get_pressure d)
  | ch_humidity => get_humidity (bme280_get_humidity d)
  | ch_light => get_light (ltr559_get_lux d) (ltr559_get_proximity d)
  | ch_gas => get_gas (gas_enable_adc d) (gas_read_all d)
  | ch_o2 => get_o2 (ioe_input d)
  | ch_particulates => get_particulates (pms5003_read d)
  | ch_co2 => get_co2 (device_measure d)
  end.

(** The drivers of a cycle in which every call raises [e]. *)
Definition all_raise (e : exn) : drivers :=
  mkDrivers (Raise e) (Raise e) (Raise e) (Raise e) (Raise e)
            (Raise e) (Raise e) (Raise e) (Raise e) (Raise e).

(** The drivers of a cycle in which every call returns a reading; the gas
    readings are [g]. *)
Definition all_return (g : gas_readings) : drivers :=
  mkDrivers (Return 20%R) (Return 1000%R) (Return 50%R) (Return 100%R)
            (Return 0%R) (Return tt) (Return g) (Return 2.0%R)
            (Return (mkPms 10 15 20))
            (Return (400%R, 20%R, 50%R, 0%R)).

(** The faults of the driver contract: I/O error, timeout, checksum
    mismatch, invalid value. *)
Definition sensor_fault (e : exn) : Prop :=
  e = IOError \/ e = RuntimeError \/ e = OSError \/ e = ValueError.

(** [run step n s]: the states after each of the first [n] cycles of [step]
    from [s]; the run stops at the first exception, which is kept with the
    state it leaves. *)
Fixpoint run (step : py unit) (n : nat) (s : state)
    : list (result unit * state) :=
  match n with
  | O => []
  | S n' =>
      match step s with
      | (Return tt, s') => (Return tt, s') :: run step n' s'
      | (Raise e, s') => [(Raise e, s')]
      end
  end.

(** What an observer sees of a channel after a cycle. *)
Definition health (ch : channel) (rs : result unit * state)
    : result unit * bool * Z * list R :=
  (fst rs, flags (snd rs) (active_of ch), counters (snd rs) (count_of ch),
   map (gauges (snd rs)) (gauges_of ch)).

(** ** Outcome of the read of a channel *)

(** [caught classes r]: the call raised an exception that the clause with
    [classes] handles. *)
Definition caught {A} (classes : list exn) (r : result A) : bool :=
  match r with
  | Return _ => false
  | Raise e => isinstance e classes
  end.

Definition returned {A} (r : result A) : bool :=
  match r with
  | Return _ => true
  | Raise _ => false
  end.

(** The driver calls of the channel, in the order the update makes them,
    end in an exception of the driver contract. *)
Definition read_fails (ch : channel) (d : drivers) : bool :=
  match ch with
  | ch_temperature => caught sensor_errors (bme280_get_temperature d)
  | ch_pressure => caught sensor_errors (bme280_get_pressure d)
  | ch_humidity => caught sensor_errors (bme280_get_humidity d)
  | ch_light =>
      caught sensor_errors (ltr559_get_lux d)
      || returned (ltr559_get_lux d)
         && caught sensor_errors (ltr559_get_proximity d)
  | ch_gas =>
      caught sensor_errors (gas_enable_adc d)
      || returned (gas_enable_adc d) && caught sensor_errors (gas_read_all d)
  | ch_o2 => caught sensor_errors (ioe_input d)
  | ch_particulates => caught particulate_errors (pms5003_read d)
  | ch_co2 => caught sensor_errors (device_measure d)
  end.

(** Every driver call of the channel returns a reading. *)
Definition read_succeeds (ch : channel) (d : drivers) : bool :=
  match ch with
  | ch_temperature => returned (bme280_get_temperature d)
  | ch_pressure => returned (bme280_get_pressure d)
  | ch_humidity => returned (bme280_get_humidity d)
  | ch_light => returned (ltr559_get_lux d) && returned (ltr559_get_proximity d)
  | ch_gas => returned (gas_enable_adc d) && returned (gas_read_all d)
  | ch_o2 => returned (ioe_input d)
  | ch_particulates => returned (pms5003_read d)
  | ch_co2 => returned (device_measure d)
  end.

(** The two conversions of [calc_ppm] that take a logarithm get an argument
    on which [log10] is defined (or never reach [log10] because the
    division by a zero baseline raised first). *)
Definition log10_defined (s : state) (red nh3 : R) : Prop :=
  (tunings s _base_red = 0 \/ 0 < red / tunings s _base_red)%R /\
  (tunings s _base_nh3 = 0 \/ 0 < nh3 / tunings s _base_nh3)%R.

(** One of the two conversions reaches [log10] with a non-positive
    argument. *)
Definition log10_domain_error (s : state) (red nh3 : R) : Prop :=
  (tunings s _base_red <> 0 /\ red / tunings s _base_red <= 0)%R \/
  (tunings s _base_nh3 <> 0 /\ nh3 / tunings s _base_nh3 <= 0)%R.

(** A state whose temperature compensation reads a constant 45 degrees. *)
Definition boot0 : state := boot (fun _ => 45000).

(** The globals with channel [ch] switched off the way the failure path
    does it: [count = MAXCOUNT], [active = False]. *)
Definition deactivated (ch : channel) (s : state) : state :=
  snd ((store (count_of ch) MAXCOUNT ;; store_flag (active_of ch) false) s).

(** The health state the channels are meant to stay in. *)
Definition in_range (c : Z) : Prop := MINCOUNT <= c <= MAXCOUNT.


(** The value of the oxidising conversion and the outcome of a conversion
    through [log10], read off the three [try] blocks. *)
Definition ppm_linear (x base k : R) : R :=
  if Req_dec_T base 0 then 0%R else round (x / base * k) 2.

Definition ppm_log (x base k : R) : result R :=
  if Req_dec_T base 0 then Return 0%R
  else if Rle_dec (x / base) 0 then Raise ValueError
  else Return (round (pow10 (ln (x / base) / ln 10) * k) 2).


(** The readings of every gauge of a channel during a failing or an
    inactive cycle. *)
Definition zeros (ch : channel) : list R := map (fun _ => 0%R) (gauges_of ch).

(** A store to the counter of [ch] that keeps it within its bounds. *)
Definition store_in_range (ch : channel) (cv : counter * Z) : Prop :=
  fst cv = count_of ch /\ in_range (snd cv).

(** The health states the channel can be in at the start of a cycle: the
    counter is within its bounds, and below [MAXCOUNT] while the channel is
    active. *)
Definition healthy (ch : channel) (s : state) : Prop :=
  in_range (counters s (count_of ch)) /\
  (flags s (active_of ch) = true -> counters s (count_of ch) < MAXCOUNT).

(** ** The compensation as the specification words it

    A window of five CPU temperatures that is kept from one cycle to the
    next: the first sample seeds it five times over, and every later cycle
    shifts its one sample in.  [spec_avg_cpu_temp samples] is the average
    after the cycles whose samples are given. *)
Definition spec_window (samples : list R) : list R :=
  match samples with
  | [] => []
  | c0 :: rest => fold_left (fun w c => tl w ++ [c]) rest (repeat c0 5)
  end.

Definition spec_avg_cpu_temp (samples : list R) : R :=
  (sum (spec_window samples) / float_len (spec_window samples))%R.

Definition spec_temperature (raw avg_cpu_temp factor : R) : R :=
  (raw - ((avg_cpu_temp - raw) / factor))%R.

(** ** The process as a whole

    The states in which a poll cycle can start: the state start-up leaves
    when it completes, and the state a completed cycle leaves. *)
Inductive reachable (factor : option R) (enviro : bool) : state -> Prop :=
| reach_startup d th s :
    startup d (boot th) = (Return tt, s) -> reachable factor enviro s
| reach_poll d s s' :
    reachable factor enviro s ->
    poll factor enviro d s = (Return tt, s') ->
    reachable factor enviro s'.

Definition temperature_fresh (s : state) : Prop :=
  flags s tempActive = true /\ counters s tempCount = MINCOUNT.

(** ** The other functions of the module *)

(** The histograms a channel observes into; the weather and light channels
    have none. *)
Definition hists_of (ch : channel) : list histogram :=
  match ch with
  | ch_gas => [OXIDISING_HIST; REDUCING_HIST; NH3_HIST]
  | ch_o2 => [O2_HIST]
  | ch_particulates => [PM1_HIST; PM25_HIST; PM10_HIST]
  | ch_co2 => [CO2_HIST]
  | _ => []
  end.

Definition channel_eq_dec (a b : channel) : {a = b} + {a <> b}.
Proof. decide equality. Defined.

(** The update of one channel over consecutive cycles, each with its own
    driver outcomes. *)
Fixpoint updates (ch : channel) (factor : option R) (ds : list drivers)
    : py unit :=
  match ds with
  | [] => ret tt
  | d :: ds' => get ch factor d ;; updates ch factor ds'
  end.

(** Everything a channel owns is in [s'] as it was in [s]. *)
Definition untouched (ch : channel) (s s' : state) : Prop :=
  flags s' (active_of ch) = flags s (active_of ch) /\
  counters s' (count_of ch) = counters s (count_of ch) /\
  (forall g, In g (gauges_of ch) -> gauges s' g = gauges s g) /\
  (forall h, In h (hists_of ch) -> observations s' h = observations s h).

(** What one cycle with a failing driver does to [(active, count)], read
    off the failure path and the inactive path of the seven updates that
    share them. *)
Definition degrade (hc : bool * Z) : bool * Z :=
  let (a, c) := hc in
  if a then
    if c + 1 >=? MAXCOUNT then (false, MAXCOUNT) else (true, c + 1)
  else
    if c >? MINCOUNT then (false, c - 1) else (true, MINCOUNT).

Fixpoint iterate {A} (f : A -> A) (n : nat) (x : A) : A :=
  match n with
  | O => x
  | S n' => iterate f n' (f x)
  end.

(** The pair [(active, count)] of a channel. *)
Definition health_of (ch : channel) (s : state) : bool * Z :=
  (flags s (active_of ch), counters s (count_of ch)).

(** A driver call that returns or raises what the clause with [classes]
    handles. *)
Definition tolerated {A} (classes : list exn) (r : result A) : bool :=
  returned r || caught classes r.

(** The drivers of a cycle the poll loop survives: the temperature read
    returns, every other call returns or ends in an exception its update
    handles. *)
Definition well_behaved (d : drivers) : bool :=
  returned (bme280_get_temperature d)
  && tolerated sensor_errors (bme280_get_pressure d)
  && tolerated sensor_errors (bme280_get_humidity d)
  && tolerated sensor_errors (ltr559_get_lux d)
  && tolerated sensor_errors (ltr559_get_proximity d)
  && tolerated sensor_errors (gas_enable_adc d)
  && tolerated sensor_errors (gas_read_all d)
  && tolerated sensor_errors (ioe_input d)
  && tolerated particulate_errors (pms5003_read d)
  && tolerated sensor_errors (device_measure d).

(** *** [collect_all_data] *)

(** A [dict] with [str] keys, in insertion order. *)
Definition dict (V : Type) : Type := list (string * V).

Fixpoint dict_set {V} (d : dict V) (k : string) (v : V) : dict V :=
  match d with
  | [] => [(k, v)]
  | (k', v') :: d' =>
      if String.eqb k' k then (k', v) :: d' else (k', v') :: dict_set d' k v
  end.

Fixpoint dict_get {V} (d : dict V) (k : string) : option V :=
  match d with
  | [] => None
  | (k', v') :: d' => if String.eqb k' k then Some v' else dict_get d' k
  end.

(** [G.collect()[0].samples[0].value]: the current value of a gauge. *)
Definition Gauge_value (g : gauge) : py R := fun s => (Return (gauges s g), s).

Definition collect_all_data : py (dict R) :=
  let sensor_data := [] in
  v <- Gauge_value TEMPERATURE ;;
  let sensor_data := dict_set sensor_data "temperature" v in
  v <- Gauge_value HUMIDITY ;;
  let sensor_data := dict_set sensor_data "humidity" v in
  v <- Gauge_value PRESSURE ;;
  let sensor_data := dict_set sensor_data "pressure" v in
  v <- Gauge_value OXIDISING ;;
  let sensor_data := dict_set sensor_data "oxidising" v in
  v <- Gauge_value REDUCING ;;
  let sensor_data := dict_set sensor_data "reducing" v in
  v <- Gauge_value NH3 ;;
  let sensor_data := dict_set sensor_data "nh3" v in
  v <- Gauge_value LUX ;;
  let sensor_data := dict_set sensor_data "lux" v in
  v <- Gauge_value PROXIMITY ;;
  let sensor_data := dict_set sensor_data "proximity" v in
  v <- Gauge_value PM1 ;;
  let sensor_data := dict_set sensor_data "pm1" v in
  v <- Gauge_value PM25 ;;
  let sensor_data := dict_set sensor_data "pm25" v in
  v <- Gauge_value PM10 ;;
  let sensor_data := dict_set sensor_data "pm10" v in
  v <- Gauge_value O2 ;;
  let sensor_data := dict_set sensor_data "o2" v in
  v <- Gauge_value CO2 ;;
  let sensor_data := dict_set sensor_data "co2" v in
  ret sensor_data.

(** The key under which the snapshot reports a gauge. *)
Definition key_of (g : gauge) : string :=
  match g with
  | TEMPERATURE => "temperature"
  | PRESSURE => "pressure"
  | HUMIDITY => "humidity"
  | OXIDISING => "oxidising"
  | REDUCING => "reducing"
  | NH3 => "nh3"
  | CO2 => "co2"
  | O2 => "o2"
  | LUX => "lux"
  | PROXIMITY => "proximity"
  | PM1 => "pm1"
  | PM25 => "pm25"
  | PM10 => "pm10"
  end.

(** *** [str_to_bool] *)

(** [str.lower] and [str.upper] on the ASCII letters; every other byte is
    left as it is. *)
Definition lower_ascii (c : ascii) : ascii :=
  let n := nat_of_ascii c in
  if ((65 <=? n) && (n <=? 90))%nat then ascii_of_nat (n + 32) else c.

Definition upper_ascii (c : ascii) : ascii :=
  let n := nat_of_ascii c in
  if ((97 <=? n) && (n <=? 122))%nat then ascii_of_nat (n - 32) else c.

Fixpoint lower (v : string) : string :=
  match v with
  | EmptyString => EmptyString
  | String c v' => String (lower_ascii c) (lower v')
  end.

Fixpoint upper (v : string) : string :=
  match v with
  | EmptyString => EmptyString
  | String c v' => String (upper_ascii c) (upper v')
  end.

(** [v in {...}] for a set of strings. *)
Definition str_in (v : string) (l : list string) : bool :=
  existsb (String.eqb v) l.

Definition str_to_bool (value : string) : result bool :=
  if str_in (lower value)
       ["false"%string; "f"%string; "0"%string; "no"%string; "n"%string]
  then Return false
  else if str_in (lower value)
            ["true"%string; "t"%string; "1"%string; "yes"%string; "y"%string]
  then Return true
  else Raise ValueError.

(** A cycle of channel [ch] in which every driver call returns and, for the
    gas channel, the conversion of the readings raises nothing. *)
Definition clean_read (ch : channel) (d : drivers) (s : state) : Prop :=
  read_succeeds ch d = true /\
  (forall r, ch = ch_gas -> gas_read_all d = Return r ->
             log10_defined s (reducing r) (nh3 r)).

(** ** Stores of a cycle *)

(** Stores appended to the history, all of them within the bounds. *)
Definition bounded_stores (s s' : state) : Prop :=
  exists l,
    stores s' = stores s ++ l /\ Forall (fun cv => in_range (snd cv)) l.

(** What holds whenever a channel update starts within a pass of the loop. *)
Definition cycle_invariant (s : state) : Prop :=
  temperature_fresh s /\ forall ch, healthy ch s.

(** * Properties *)

(** ** Basic facts *)

Lemma run_return step n s s' :
  step s = (Return tt, s') ->
  run step (S n) s = (Return tt, s') :: run step n s'.
Proof. intros H; cbn [run]; rewrite H; reflexivity. Qed.

Lemma run_raise step n s e s' :
  step s = (Raise e, s') ->
  run step (S n) s = [(Raise e, s')].
Proof. intros H; cbn [run]; rewrite H; reflexivity. Qed.

Lemma sensor_fault_caught e :
  sensor_fault e -> isinstance e sensor_errors = true.
Proof. intros [-> | [-> | [-> | ->]]]; reflexivity. Qed.

Lemma sensor_fault_caught_pms e :
  sensor_fault e -> isinstance e particulate_errors = true.
Proof. intros [-> | [-> | [-> | ->]]]; reflexivity. Qed.

Lemma all_raise_fails ch e :
  sensor_fault e -> read_fails ch (all_raise e) = true.
Proof.
  intros H; pose proof (sensor_fault_caught e H) as H1;
    pose proof (sensor_fault_caught_pms e H) as H2.
  destruct ch; cbn [read_fails all_raise caught returned
    bme280_get_temperature bme280_get_pressure bme280_get_humidity
    ltr559_get_lux ltr559_get_proximity gas_enable_adc gas_read_all
    ioe_input pms5003_read device_measure];
    rewrite ?H1, ?H2; reflexivity.
Qed.

Lemma update_eq {K V} (dec : forall a b : K, {a = b} + {a <> b})
    (m : K -> V) k v :
  update dec m k v k = v.
Proof. unfold update; destruct (dec k k); congruence. Qed.

Lemma update_neq {K V} (dec : forall a b : K, {a = b} + {a <> b})
    (m : K -> V) k v k' :
  k' <> k -> update dec m k v k' = m k'.
Proof. unfold update; destruct (dec k' k); congruence. Qed.

(** *** Symbolic execution of one update *)

Ltac split_read H :=
  repeat match type of H with
  | context [caught _ ?r] =>
      is_var r; destruct r as [?|[]]; cbn in H; try discriminate H
  | context [returned ?r] =>
      is_var r; destruct r as [?|[]]; cbn in H; try discriminate H
  end.

Ltac unfold_get :=
  unfold get, get_temperature, get_pressure, get_humidity, get_light,
    get_gas, get_o2, get_particulates, get_co2.

Ltac frame :=
  repeat split; intros;
  repeat match goal with
  | H : In _ _ |- _ => cbn in H
  | H : _ \/ _ |- _ => destruct H
  | H : False |- _ => contradiction
  | H : _ = ?g |- _ => is_var g; subst g
  end;
  cbn; rewrite ?update_neq by assumption; rewrite ?update_eq;
  try solve [reflexivity | assumption | congruence].

Lemma fail_step ch factor d s :
  ch <> ch_temperature ->
  read_fails ch d = true ->
  flags s (active_of ch) = true ->
  exists s',
    get ch factor d s = (Return tt, s') /\
    counters s' (count_of ch) =
      (if counters s (count_of ch) + 1 >=? MAXCOUNT then MAXCOUNT
       else counters s (count_of ch) + 1) /\
    flags s' (active_of ch) =
      negb (counters s (count_of ch) + 1 >=? MAXCOUNT) /\
    (forall g, In g (gauges_of ch) -> gauges s' g = 0%R) /\
    (forall f, f <> active_of ch -> flags s' f = flags s f) /\
    (forall c, c <> count_of ch -> counters s' c = counters s c).
Proof.
  intros Hch Hf Ha.
  destruct ch; try congruence; destruct d; cbn in Hf, Ha;
    split_read Hf; unfold_get; cbn; rewrite Ha; cbn;
    match goal with |- context [?a >=? ?b] => destruct (a >=? b) end; cbn;
    (eexists; split; [reflexivity|]); frame.
Qed.

Lemma idle_step ch factor d s :
  ch <> ch_temperature ->
  flags s (active_of ch) = false ->
  exists s',
    get ch factor d s = (Return tt, s') /\
    counters s' (count_of ch) =
      (if counters s (count_of ch) >? MINCOUNT
       then counters s (count_of ch) - 1 else MINCOUNT) /\
    flags s' (active_of ch) = negb (counters s (count_of ch) >? MINCOUNT) /\
    (forall g, In g (gauges_of ch) -> gauges s' g = 0%R) /\
    (forall f, f <> active_of ch -> flags s' f = flags s f) /\
    (forall c, c <> count_of ch -> counters s' c = counters s c).
Proof.
  intros Hch Ha.
  destruct ch; try congruence; destruct d; cbn in Ha;
    unfold_get; cbn; rewrite Ha; cbn;
    match goal with |- context [?a >? ?b] => destruct (a >? b) end; cbn;
    (eexists; split; [reflexivity|]); frame.
Qed.

(** *** [calc_ppm] *)

Lemma calc_ppm_unfold ox red nh3 s :
  calc_ppm ox red nh3 s =
  (match ppm_log red (tunings s _base_red) (tunings s _red_factor) with
   | Raise e => Raise e
   | Return r =>
       match ppm_log nh3 (tunings s _base_nh3) (tunings s _nh3_factor) with
       | Raise e => Raise e
       | Return a =>
           Return (ppm_linear ox (tunings s _base_ox) (tunings s _ox_factor),
                   r, a)
       end
   end, s).
Proof.
  unfold calc_ppm, try_except, bind, load_tuning, truediv, log10, ret, raise,
    ppm_log, ppm_linear; cbn.
  repeat (match goal with
          | |- context [Req_dec_T ?a ?b] => destruct (Req_dec_T a b)
          | |- context [Rle_dec ?a ?b] => destruct (Rle_dec a b)
          end; cbn; try contradiction);
    reflexivity.
Qed.

Lemma calc_ppm_returns ox red nh3 s :
  log10_defined s red nh3 ->
  exists ppm, calc_ppm ox red nh3 s = (Return ppm, s).
Proof.
  intros [Hr Hn]; rewrite calc_ppm_unfold; unfold ppm_log.
  destruct (Req_dec_T (tunings s _base_red) 0);
    destruct (Req_dec_T (tunings s _base_nh3) 0);
    try destruct (Rle_dec (red / tunings s _base_red) 0);
    try destruct (Rle_dec (nh3 / tunings s _base_nh3) 0);
    try (exfalso; destruct Hr; [congruence | lra]);
    try (exfalso; destruct Hn; [congruence | lra]);
    eexists; reflexivity.
Qed.

Lemma calc_ppm_raises ox red nh3 s :
  log10_domain_error s red nh3 ->
  calc_ppm ox red nh3 s = (Raise ValueError, s).
Proof.
  intros H; rewrite calc_ppm_unfold; unfold ppm_log.
  destruct (Req_dec_T (tunings s _base_red) 0);
    destruct (Req_dec_T (tunings s _base_nh3) 0);
    try destruct (Rle_dec (red / tunings s _base_red) 0);
    try destruct (Rle_dec (nh3 / tunings s _base_nh3) 0);
    try reflexivity;
    exfalso; destruct H as [[H1 H2] | [H1 H2]]; try contradiction; lra.
Qed.

(** *** The window of CPU temperatures *)

Lemma window_average (a b : R) :
  truediv (sum (tl (repeat a 5) ++ [b])) (float_len (tl (repeat a 5) ++ [b]))
  = ret ((4 * a + b) / 5)%R.
Proof.
  unfold truediv, float_len, sum; cbn [repeat tl app fold_left List.length].
  replace (INR 5) with 5%R by (simpl; lra).
  destruct (Req_dec_T 5 0); [lra |].
  f_equal; lra.
Qed.

(** *** The paths of [get_temperature] *)

Lemma get_temperature_compensated f raw s :
  f <> 0%R ->
  flags s tempActive = true ->
  exists s',
    get_temperature (Some f) (Return raw) s = (Return tt, s') /\
    gauges s' TEMPERATURE =
      (raw - ((4 * (IZR (thermal_zone0 s (cpu_reads s)) / 1000)
               + IZR (thermal_zone0 s (S (cpu_reads s))) / 1000) / 5 - raw)
             / f)%R /\
    cpu_reads s' = S (S (cpu_reads s)) /\
    thermal_zone0 s' = thermal_zone0 s /\
    (forall f, flags s' f = flags s f) /\
    (forall c, counters s' c = counters s c) /\
    stores s' = stores s.
Proof.
  intros Hf Ha. unfold get_temperature.
  unfold bind at 1, load_flag. rewrite Ha.
  unfold bind at 1. unfold try_except, call. cbn [bind ret].
  unfold truthy. destruct (Req_dec_T f 0) as [|_]; [contradiction |].
  unfold bind at 1. unfold bind at 1. unfold get_cpu_temperature at 1.
  cbn beta iota zeta.
  unfold bind at 1. unfold get_cpu_temperature at 1. cbn beta iota zeta.
  unfold bind at 1. rewrite window_average. unfold ret at 1. cbn beta iota.
  unfold truediv. destruct (Req_dec_T f 0) as [|_]; [contradiction |].
  cbn. eexists; split; [reflexivity |]. frame.
Qed.

Lemma get_temperature_plain factor raw s :
  truthy factor = None ->
  flags s tempActive = true ->
  exists s',
    get_temperature factor (Return raw) s = (Return tt, s') /\
    gauges s' TEMPERATURE = raw /\
    cpu_reads s' = cpu_reads s /\
    (forall f, flags s' f = flags s f) /\
    (forall c, counters s' c = counters s c) /\
    stores s' = stores s.
Proof.
  intros Hf Ha. unfold get_temperature.
  unfold bind at 1, load_flag. rewrite Ha.
  unfold bind at 1. unfold try_except, call. cbn [bind ret].
  rewrite Hf. cbn. eexists; split; [reflexivity |]. frame.
Qed.

Lemma truthy_cases factor :
  truthy factor = None \/ exists f, factor = Some f /\ f <> 0%R.
Proof.
  destruct factor as [f |]; [| left; reflexivity].
  unfold truthy; destruct (Req_dec_T f 0); [left; reflexivity |].
  right; exists f; split; [reflexivity | assumption].
Qed.

(** The unbound local: whatever the factor, a fault of the BME280 read
    leaves [get_temperature] through [UnboundLocalError], after the failure
    path has run. *)
Lemma get_temperature_fault factor e s :
  isinstance e sensor_errors = true ->
  flags s tempActive = true ->
  exists s',
    get_temperature factor (Raise e) s = (Raise UnboundLocalError, s') /\
    gauges s' TEMPERATURE = 0%R /\
    counters s' tempCount =
      (if counters s tempCount + 1 >=? MAXCOUNT then MAXCOUNT
       else counters s tempCount + 1) /\
    flags s' tempActive = negb (counters s tempCount + 1 >=? MAXCOUNT).
Proof.
  intros He Ha. unfold get_temperature.
  unfold bind at 1, load_flag. rewrite Ha.
  unfold bind at 1. unfold try_except, call. unfold bind at 1. rewrite He.
  cbn [bind ret].
  destruct (truthy_cases factor) as [Hf | (f & -> & Hf)].
  - rewrite Hf. cbn.
    destruct (counters s tempCount + 1 >=? MAXCOUNT); cbn;
      (eexists; split; [reflexivity |]); frame.
  - unfold truthy. destruct (Req_dec_T f 0) as [|_]; [contradiction |].
    cbn -[truediv sum float_len repeat tl app].
    destruct (counters s tempCount + 1 >=? MAXCOUNT);
      cbn -[truediv sum float_len repeat tl app];
      unfold bind at 1; unfold bind at 1; unfold get_cpu_temperature at 1;
      cbn beta iota zeta;
      unfold bind at 1; unfold get_cpu_temperature at 1; cbn beta iota zeta;
      unfold bind at 1; rewrite window_average; cbn;
      (eexists; split; [reflexivity |]); frame.
Qed.

(** The inactive path: the counter is raised by one and lowered by one. *)
Lemma get_temperature_idle factor r s :
  flags s tempActive = false ->
  MINCOUNT <= counters s tempCount ->
  exists s',
    get_temperature factor r s = (Return tt, s') /\
    gauges s' TEMPERATURE = 0%R /\
    flags s' tempActive = false /\
    counters s' tempCount = counters s tempCount /\
    stores s' =
      stores s ++ [(tempCount, counters s tempCount + 1);
                   (tempCount, counters s tempCount)].
Proof.
  intros Ha Hc. unfold get_temperature.
  unfold bind at 1, load_flag. rewrite Ha. cbn.
  replace (counters s tempCount + 1 >? MINCOUNT) with true
    by (symmetry; apply Z.gtb_lt; unfold MINCOUNT in *; lia).
  cbn. eexists; split; [reflexivity |]. cbn.
  replace (counters s tempCount + 1 - 1) with (counters s tempCount) by lia.
  rewrite <- app_assoc. frame.
Qed.

(** *** A cycle whose read succeeds *)

Lemma ok_step ch factor d s :
  read_succeeds ch d = true ->
  flags s (active_of ch) = true ->
  (forall r, ch = ch_gas -> gas_read_all d = Return r ->
             log10_defined s (reducing r) (nh3 r)) ->
  exists s',
    get ch factor d s = (Return tt, s') /\
    (forall f, flags s' f = flags s f) /\
    (forall c, counters s' c = counters s c) /\
    stores s' = stores s.
Proof.
  intros Hr Ha Hg.
  destruct ch; destruct d; cbn in Hr, Ha, Hg;
    try (split_read Hr;
         repeat match goal with
                | p : scd4x_measurement |- _ => destruct p as [[[? ?] ?] ?]
                end;
         unfold_get; cbn; rewrite Ha; cbn;
         (eexists; split; [reflexivity |]); frame).
  - (* temperature *)
    split_read Hr. cbn [get bme280_get_temperature].
    match goal with
    | |- context [get_temperature _ (Return ?raw)] =>
        destruct (truthy_cases factor) as [Hf | (f & -> & Hf)];
        [ destruct (get_temperature_plain factor raw s Hf Ha)
            as (s' & E & _ & _ & F & C & St)
        | destruct (get_temperature_compensated f raw s Hf Ha)
            as (s' & E & _ & _ & _ & F & C & St) ]
    end; exists s'; auto.
  - (* gas *)
    split_read Hr.
    repeat match goal with u : unit |- _ => destruct u end.
    match goal with
    | r : gas_readings |- _ =>
        destruct (calc_ppm_returns (oxidising r) (reducing r) (nh3 r) s
                    (Hg r eq_refl eq_refl)) as [[[p0 p1] p2] E]
    end.
    cbn [get gas_enable_adc gas_read_all].
    unfold get_gas. unfold bind at 1, load_flag. rewrite Ha.
    unfold try_except_else, call. unfold bind at 1. unfold bind at 1.
    cbn zeta. rewrite E. cbn.
    (eexists; split; [reflexivity |]); frame.
Qed.

(** *** Rounding *)

Lemma round_half_even_IZR n : round_half_even (IZR n) = n.
Proof.
  unfold round_half_even; rewrite ZfloorZ.
  destruct (Rlt_dec (IZR n - IZR n) (1 / 2)); [reflexivity | exfalso; lra].
Qed.

Lemma round_half_even_up n x :
  (IZR n + 1 / 2 < x < IZR n + 1)%R -> round_half_even x = n + 1.
Proof.
  intros H; unfold round_half_even.
  rewrite (Zfloor_eq n x) by lra.
  destruct (Rlt_dec (x - IZR n) (1 / 2)); [exfalso; lra |].
  destruct (Rlt_dec (1 / 2) (x - IZR n)); [reflexivity | exfalso; lra].
Qed.

Lemma round_half_even_down n x :
  (IZR n <= x < IZR n + 1 / 2)%R -> round_half_even x = n.
Proof.
  intros H; unfold round_half_even.
  rewrite (Zfloor_eq n x) by lra.
  destruct (Rlt_dec (x - IZR n) (1 / 2)); [reflexivity | exfalso; lra].
Qed.

Lemma round_2_of_integer n : round (IZR n) 2 = IZR n.
Proof.
  unfold round.
  replace (IZR n * 10 ^ 2)%R with (IZR (n * 100)) by (rewrite mult_IZR; simpl; lra).
  rewrite round_half_even_IZR, mult_IZR. simpl. field.
Qed.

Lemma round_example_1 : round 0.01 2 = 0.01%R.
Proof.
  unfold round. replace (0.01 * 10 ^ 2)%R with (IZR 1) by (simpl; lra).
  rewrite round_half_even_IZR. simpl. lra.
Qed.

Lemma round_example_2 : round 0.106 2 = 0.11%R.
Proof.
  unfold round. rewrite (round_half_even_up 10) by (simpl; lra).
  simpl. lra.
Qed.

(** *** Health invariant *)

Ltac explore s :=
  repeat (cbn;
    match goal with
    | |- context [flags s ?f] =>
        tryif is_var f then fail else destruct (flags s f) eqn:?
    | r : result _ |- context [?r'] => constr_eq r r'; destruct r
    | e : exn |- context [exn_eq_dec ?e1 _] => constr_eq e e1; destruct e
    | |- context [Req_dec_T ?a ?b] => destruct (Req_dec_T a b)
    | |- context [Rle_dec ?a ?b] => destruct (Rle_dec a b)
    | |- context [?a >=? ?b] =>
        rewrite (Z.geb_leb a b); destruct (Z.leb_spec b a)
    | |- context [?a >? ?b] =>
        rewrite (Z.gtb_ltb a b); destruct (Z.ltb_spec b a)
    | p : scd4x_measurement |- _ => destruct p as [[[? ?] ?] ?]
    end).

Ltac range_goal :=
  unfold MINCOUNT, MAXCOUNT in *;
  split;
  [ cbn; rewrite ?update_eq; repeat split; intros;
    solve [lia | discriminate | congruence]
  | eexists; split;
    [ cbn; first [ symmetry; apply app_nil_r
                 | rewrite <- !app_assoc; reflexivity
                 | reflexivity ]
    | repeat (apply Forall_cons || apply Forall_nil);
      cbn; unfold in_range, MINCOUNT, MAXCOUNT; (split; [reflexivity | lia]) ] ].

Lemma health_preserved ch factor d s :
  ch <> ch_temperature ->
  healthy ch s ->
  healthy ch (snd (get ch factor d s)) /\
  exists l,
    stores (snd (get ch factor d s)) = stores s ++ l /\
    Forall (store_in_range ch) l.
Proof.
  intros Hch [[Hlo Hhi] Hact].
  unfold healthy, in_range, store_in_range, MINCOUNT, MAXCOUNT in *.
  destruct ch; try congruence; destruct d; cbn in Hlo, Hhi, Hact |- *;
    unfold_get; explore s; cbn; try specialize (Hact eq_refl);
    try range_goal.
  (* gas: the read returned and [calc_ppm] runs *)
  cbv [try_except_else bind call]; rewrite calc_ppm_unfold.
  destruct (ppm_log _ _ _) as [r | e];
    [destruct (ppm_log _ _ _) as [r' | e] |];
    explore s; cbn; range_goal.
Qed.

(** *** The duty cycle of the channels other than temperature *)

Lemma gauges_zero ch s :
  (forall g, In g (gauges_of ch) -> gauges s g = 0%R) ->
  map (gauges s) (gauges_of ch) = zeros ch.
Proof.
  intros H; unfold zeros; apply map_ext_in; exact H.
Qed.

(** A driver that fails on every call, a channel that starts active with a
    streak of 0: two failing cycles, then three cycles on the inactive path
    (two that lower the counter and one that switches the channel on
    again), every one of them with the gauges at 0; the sixth cycle is the
    next real read. *)
Lemma duty_cycle ch factor d s :
  ch <> ch_temperature ->
  read_fails ch d = true ->
  flags s (active_of ch) = true ->
  counters s (count_of ch) = MINCOUNT ->
  map (health ch) (run (get ch factor d) 5 s) =
    [(Return tt, true, 1, zeros ch);
     (Return tt, false, 2, zeros ch);
     (Return tt, false, 1, zeros ch);
     (Return tt, false, 0, zeros ch);
     (Return tt, true, 0, zeros ch)].
Proof.
  intros Hch Hf Ha0 Hc0.
  destruct (fail_step ch factor d s Hch Hf Ha0)
    as (s1 & E1 & C1 & A1 & G1 & _).
  rewrite Hc0 in C1, A1; cbn in C1, A1.
  destruct (fail_step ch factor d s1 Hch Hf A1)
    as (s2 & E2 & C2 & A2 & G2 & _).
  rewrite C1 in C2, A2; cbn in C2, A2.
  destruct (idle_step ch factor d s2 Hch A2)
    as (s3 & E3 & C3 & A3 & G3 & _).
  rewrite C2 in C3, A3; cbn in C3, A3.
  destruct (idle_step ch factor d s3 Hch A3)
    as (s4 & E4 & C4 & A4 & G4 & _).
  rewrite C3 in C4, A4; cbn in C4, A4.
  destruct (idle_step ch factor d s4 Hch A4)
    as (s5 & E5 & C5 & A5 & G5 & _).
  rewrite C4 in C5, A5; cbn in C5, A5.
  rewrite (run_return _ _ _ _ E1), (run_return _ _ _ _ E2),
    (run_return _ _ _ _ E3), (run_return _ _ _ _ E4),
    (run_return _ _ _ _ E5).
  cbn [run map]. unfold health. cbn [fst snd].
  rewrite C1, C2, C3, C4, C5, A1, A2, A3, A4, A5.
  rewrite !gauges_zero by assumption.
  reflexivity.
Qed.

(** The scenario of a driver that times out on every call, from the state
    the module starts in. *)
Lemma timeout_scenario_others ch factor th :
  ch <> ch_temperature ->
  map (health ch) (run (get ch factor (all_raise RuntimeError)) 5 (boot th)) =
    [(Return tt, true, 1, zeros ch);
     (Return tt, false, 2, zeros ch);
     (Return tt, false, 1, zeros ch);
     (Return tt, false, 0, zeros ch);
     (Return tt, true, 0, zeros ch)].
Proof.
  intros Hch. apply duty_cycle; try reflexivity; [assumption |].
  apply all_raise_fails; right; left; reflexivity.
Qed.

(** The channels other than temperature recover every fault of the driver
    contract locally. *)
Lemma fault_recovered_locally ch factor d s :
  ch <> ch_temperature ->
  read_fails ch d = true ->
  fst (get ch factor d s) = Return tt.
Proof.
  intros Hch Hf.
  destruct (flags s (active_of ch)) eqn:Ha.
  - destruct (fail_step ch factor d s Hch Hf Ha) as (s' & E & _).
    rewrite E; reflexivity.
  - destruct (idle_step ch factor d s Hch Ha) as (s' & E & _).
    rewrite E; reflexivity.
Qed.

(** *** Temperature: the inactive path never switches the channel on *)

(** Once the temperature channel is inactive it stays inactive: every later
    cycle returns, sets the gauge to 0 and leaves the streak where it was,
    whatever the driver would have returned. *)

Lemma temperature_never_resumes factor d n s :
  flags s tempActive = false ->
  MINCOUNT <= counters s tempCount ->
  map (health ch_temperature) (run (get ch_temperature factor d) n s) =
    repeat (Return tt, false, counters s tempCount, [0%R]) n.
Proof.
  revert s; induction n as [| n IH]; intros s Ha Hc; [reflexivity |].
  destruct (get_temperature_idle factor (bme280_get_temperature d) s Ha Hc)
    as (s' & E & G & A & C & _).
  rewrite (run_return _ _ _ _ E).
  cbn [map repeat]. rewrite IH by (rewrite ?C; assumption).
  unfold health at 1; cbn [fst snd active_of count_of gauges_of map].
  rewrite G, A, C. reflexivity.
Qed.

(** One faulty temperature read ends the poll loop. *)
Lemma main_loop_ended_by_temperature_fault factor enviro e d ds s :
  sensor_fault e ->
  flags s tempActive = true ->
  bme280_get_temperature d = Raise e ->
  fst (main_loop factor enviro (d :: ds) s) = Raise UnboundLocalError.
Proof.
  intros He Ha Hd.
  destruct (get_temperature_fault factor e s (sensor_fault_caught e He) Ha)
    as (s' & E & _).
  cbn [main_loop]. unfold bind at 1. unfold poll. unfold bind at 1.
  rewrite Hd, E. reflexivity.
Qed.

(** *** Start-up handlers that work *)

Lemma init_ioe_failure e s :
  let s' := snd (init_ioe (Raise e) s) in
  fst (init_ioe (Raise e) s) = Return tt /\
  flags s' o2Active = false /\ counters s' o2Count = MAXCOUNT.
Proof. cbn. repeat split. Qed.

Lemma init_pms5003_failure e s :
  let s' := snd (init_pms5003 (Raise e) s) in
  fst (init_pms5003 (Raise e) s) = Return tt /\
  flags s' partActive = false /\ counters s' partCount = MAXCOUNT.
Proof. cbn. repeat split. Qed.

(** *** A gas reading on which the conversion fails *)

Lemma get_gas_conversion_error ox red am s :
  log10_domain_error s red am ->
  flags s gasActive = true ->
  exists s',
    get_gas (Return tt) (Return (mkGas ox red am)) s = (Return tt, s') /\
    (forall g, In g (gauges_of ch_gas) -> gauges s' g = 0%R) /\
    counters s' gasCount =
      (if counters s gasCount + 1 >=? MAXCOUNT then MAXCOUNT
       else counters s gasCount + 1) /\
    flags s' gasActive = negb (counters s gasCount + 1 >=? MAXCOUNT) /\
    tunings s' = tunings s.
Proof.
  intros H Ha. pose proof (calc_ppm_raises ox red am s H) as E.
  unfold get_gas. unfold bind at 1, load_flag. rewrite Ha.
  unfold try_except_else, call.
  unfold bind at 1. unfold bind at 1. cbn [oxidising reducing nh3].
  rewrite E. cbn.
  destruct (counters s gasCount + 1 >=? MAXCOUNT); cbn;
    (eexists; split; [reflexivity |]); frame.
Qed.

Lemma boot0_domain_error : log10_domain_error boot0 0 1.
Proof. left; cbn; split; lra. Qed.

(** *** The process as a whole *)

Lemma bind_returns {A B} (m : py A) (k : A -> py B) s b s' :
  bind m k s = (Return b, s') ->
  exists a s1, m s = (Return a, s1) /\ k a s1 = (Return b, s').
Proof.
  unfold bind; destruct (m s) as [[a | e] s1]; intros H;
    [exists a, s1; auto | discriminate].
Qed.

(** An update of another channel writes neither the flag nor the counter of
    this one, whatever the drivers do. *)
Lemma other_channels_untouched ch factor d s f c :
  ch <> ch_temperature ->
  f <> active_of ch ->
  c <> count_of ch ->
  flags (snd (get ch factor d s)) f = flags s f /\
  counters (snd (get ch factor d s)) c = counters s c.
Proof.
  intros Hch Hf Hc.
  destruct ch; try congruence; destruct d; cbn in Hf, Hc |- *;
    unfold_get; explore s; cbn;
    try (split; rewrite ?update_neq by assumption; reflexivity).
  cbv [try_except_else bind call]; rewrite calc_ppm_unfold.
  destruct (ppm_log _ _ _) as [r | e];
    [destruct (ppm_log _ _ _) as [r' | e] |];
    explore s; cbn; split; rewrite ?update_neq by assumption; reflexivity.
Qed.

(** [get_temperature] returns from an active channel only when the read
    succeeded, and then it leaves the health of every channel alone. *)
Lemma get_temperature_returns factor r s s' :
  flags s tempActive = true ->
  get_temperature factor r s = (Return tt, s') ->
  returned r = true /\
  (forall f, flags s' f = flags s f) /\
  (forall c, counters s' c = counters s c).
Proof.
  intros Ha E. destruct r as [raw | e].
  - split; [reflexivity |].
    destruct (truthy_cases factor) as [Hf | (f & -> & Hf)].
    + destruct (get_temperature_plain factor raw s Hf Ha)
        as (s1 & E1 & _ & _ & F & C & _).
      rewrite E in E1; inversion E1; subst; auto.
    + destruct (get_temperature_compensated f raw s Hf Ha)
        as (s1 & E1 & _ & _ & _ & F & C & _).
      rewrite E in E1; inversion E1; subst; auto.
  - exfalso. destruct (isinstance e sensor_errors) eqn:He.
    + destruct (get_temperature_fault factor e s He Ha) as (s1 & E1 & _).
      rewrite E in E1; discriminate.
    + revert E. unfold get_temperature. unfold bind at 1, load_flag.
      rewrite Ha. unfold bind at 1. unfold try_except, call.
      unfold bind at 1. rewrite He. discriminate.
Qed.

Section Process.

Variable factor : option R.
Variable enviro : bool.

Lemma startup_temperature_fresh d th s :
  startup d (boot th) = (Return tt, s) -> temperature_fresh s.
Proof.
  destruct d as [[[] | e1] [[] | e2] [[] | e3] [[] | e4]];
    cbn; intros H; inversion H; subst; split; reflexivity.
Qed.

Lemma step_temperature_fresh ch d s s' :
  ch <> ch_temperature ->
  temperature_fresh s ->
  get ch factor d s = (Return tt, s') ->
  temperature_fresh s'.
Proof.
  intros Hch [Ha Hc] E.
  assert (Hf : tempActive <> active_of ch) by (destruct ch; cbn; congruence).
  assert (Hk : tempCount <> count_of ch) by (destruct ch; cbn; congruence).
  destruct (other_channels_untouched ch factor d s _ _ Hch Hf Hk)
    as [F C].
  rewrite E in F, C; cbn [snd] in F, C.
  split; congruence.
Qed.

Lemma poll_temperature_fresh d s s' :
  temperature_fresh s ->
  poll factor enviro d s = (Return tt, s') ->
  temperature_fresh s'.
Proof.
  intros H0 E. unfold poll in E.
  apply bind_returns in E; destruct E as ([] & s1 & E1 & E).
  apply bind_returns in E; destruct E as ([] & s2 & E2 & E).
  apply bind_returns in E; destruct E as ([] & s3 & E3 & E).
  apply bind_returns in E; destruct E as ([] & s4 & E4 & E).
  assert (H1 : temperature_fresh s1).
  { destruct H0 as [Ha Hc].
    destruct (get_temperature_returns _ _ _ _ Ha E1) as (_ & F & C).
    split; [rewrite F | rewrite C]; assumption. }
  assert (H2 : temperature_fresh s2)
    by (apply (step_temperature_fresh ch_pressure d s1); [discriminate | assumption | exact E2]).
  assert (H3 : temperature_fresh s3)
    by (apply (step_temperature_fresh ch_humidity d s2); [discriminate | assumption | exact E3]).
  assert (H4 : temperature_fresh s4)
    by (apply (step_temperature_fresh ch_light d s3); [discriminate | assumption | exact E4]).
  destruct enviro; cbn [negb] in E.
  - inversion E; subst; assumption.
  - apply bind_returns in E; destruct E as ([] & s5 & E5 & E).
    apply bind_returns in E; destruct E as ([] & s6 & E6 & E).
    apply bind_returns in E; destruct E as ([] & s7 & E7 & E).
    apply (step_temperature_fresh ch_co2 d s7); [discriminate | | exact E].
    apply (step_temperature_fresh ch_particulates d s6); [discriminate | | exact E7].
    apply (step_temperature_fresh ch_o2 d s5); [discriminate | | exact E6].
    apply (step_temperature_fresh ch_gas d s4); [discriminate | | exact E5].
    assumption.
Qed.

(** In the process as shipped a cycle never starts with the temperature
    channel inactive or its streak above 0: a failed construction of the
    BME280 and a failed temperature read both end the process. *)
Lemma reachable_temperature_fresh s :
  reachable factor enviro s -> temperature_fresh s.
Proof.
  induction 1 as [d th s H | d s s' _ IH H].
  - exact (startup_temperature_fresh d th s H).
  - exact (poll_temperature_fresh d s s' IH H).
Qed.

End Process.

(** * The claims *)

(** C1 (as the code has it, for the temperature channel).  A BME280 driver
    that times out on every call, the temperature channel active with a
    streak of 0: the first cycle runs the failure path (gauge 0, streak 1,
    still active) and then leaves [get_temperature] through
    [UnboundLocalError]; there is no second cycle, so the sequence
    true, true, false, false, false, true of the other seven channels
    ([duty_cycle]) is not produced. *)
Theorem timeout_scenario_temperature factor th :
  map (health ch_temperature)
      (run (get ch_temperature factor (all_raise RuntimeError)) 6 (boot th))
  = [(Raise UnboundLocalError, true, 1, [0%R])].
Proof.
  destruct (get_temperature_fault factor RuntimeError (boot th)
              eq_refl eq_refl) as (s' & E & G & C & A).
  cbn [get all_raise bme280_get_temperature].
  rewrite (run_raise _ _ _ _ _ E).
  cbn [map]. unfold health. cbn [fst snd active_of count_of gauges_of map].
  rewrite G, C, A. reflexivity.
Qed.

(** C2 (as the code has it).  In [get_temperature] a fault of the driver
    contract is handled by the failure path, and then the statement after
    the [try] reads [raw_temp], which the failed read never bound: for any
    compensation factor the update raises [UnboundLocalError]. *)
Theorem temperature_fault_propagates factor e s :
  sensor_fault e ->
  flags s tempActive = true ->
  fst (get_temperature factor (Raise e) s) = Raise UnboundLocalError.
Proof.
  intros He Ha.
  destruct (get_temperature_fault factor e s (sensor_fault_caught e He) Ha)
    as (s' & E & _).
  rewrite E; reflexivity.
Qed.

Lemma temperature_fault_propagates_witness :
  sensor_fault RuntimeError /\
  flags boot0 tempActive = true /\
  fst (get_temperature None (Raise RuntimeError) boot0)
    = Raise UnboundLocalError.
Proof.
  split; [right; left; reflexivity |].
  split; [reflexivity |].
  apply (temperature_fault_propagates None RuntimeError boot0);
    [right; left; reflexivity | reflexivity].
Defined.

(** C3 (as the code has it).  When the construction of the BME280 fails,
    the handler's first statement unpacks the single value [False] into
    three targets and raises [TypeError]: start-up ends there, with the
    three channels still flagged active at streak 0.  When the set-up of the
    SCD4X fails, the handler clears [co2Active] and leaves [co2Count] at
    [MINCOUNT]. *)
Theorem startup_failure_handlers th e :
  startup (mkDevices (Return tt) (Raise e) (Return tt) (Return tt)) (boot th)
    = (Raise TypeError, boot th) /\
  (let s := snd (startup (mkDevices (Return tt) (Return tt) (Return tt)
                            (Raise e)) (boot th)) in
   flags s co2Active = false /\
   counters s co2Count = MINCOUNT /\
   counters s co2Count <> MAXCOUNT).
Proof.
  split; [reflexivity |].
  cbn. repeat split. discriminate.
Qed.

(** C4, counterexample.  With the module's baselines, a reducing-gas
    reading of 0 makes [log10] raise [ValueError]; the clause of [calc_ppm]
    catches [ZeroDivisionError] only, so the exception reaches [get_gas],
    which takes its failure path. *)
Lemma calc_ppm_domain_error_propagates :
  fst (calc_ppm 1 0 1 boot0) = Raise ValueError /\
  (forall ppm, fst (calc_ppm 1 0 1 boot0) <> Return ppm) /\
  (let s := snd (get_gas (Return tt) (Return (mkGas 1 0 1)) boot0) in
   counters s gasCount = 1 /\ gauges s REDUCING = 0%R).
Proof.
  pose proof (calc_ppm_raises 1 0 1 boot0 boot0_domain_error) as E.
  split; [rewrite E; reflexivity |].
  split; [intros ppm; rewrite E; discriminate |].
  destruct (get_gas_conversion_error 1 0 1 boot0 boot0_domain_error eq_refl)
    as (s' & E' & G & C & _ & _).
  rewrite E'; cbn [snd]. split; [exact C | apply G; cbn; auto].
Qed.

(** The two cases of [calc_ppm] exclude each other and leave nothing out. *)
Lemma log10_cases s red am :
  (log10_defined s red am \/ log10_domain_error s red am) /\
  ~ (log10_defined s red am /\ log10_domain_error s red am).
Proof.
  unfold log10_defined, log10_domain_error. split.
  - destruct (Req_dec_T (tunings s _base_red) 0) as [Hr | Hr];
      destruct (Req_dec_T (tunings s _base_nh3) 0) as [Hn | Hn];
      destruct (Rle_dec (red / tunings s _base_red) 0) as [Lr | Lr];
      destruct (Rle_dec (am / tunings s _base_nh3) 0) as [Ln | Ln];
      try (right; left; split; assumption);
      try (right; right; split; assumption);
      left; split;
      first [left; assumption | right; lra].
  - intros [[Dr Dn] [[Hr Lr] | [Hn Ln]]].
    + destruct Dr; [contradiction | lra].
    + destruct Dn; [contradiction | lra].
Qed.

(** C4, amended.  For every input exactly one of two cases holds.  Either
    no conversion reaches [log10] with an argument that is not positive
    (for the reducing and for the ammonia reading: the baseline is 0, or
    reading / baseline > 0): then [calc_ppm] returns, the globals are as
    they were, and every gas whose baseline is 0 has the value 0.0, its
    [ZeroDivisionError] caught at the conversion.  Or the reducing or the
    ammonia conversion has a baseline other than 0 and reading / baseline
    <= 0: then [log10] raises [ValueError], [calc_ppm] does not catch it
    (also when another gas has a baseline of 0) and raises it to its
    caller; [get_gas], when the channel is active, handles it as a failed
    read: it returns, the three gas gauges are 0, [gasCount] is
    [gasCount + 1] clamped to [MAXCOUNT], and [gasActive] is cleared
    exactly when [gasCount + 1 >= MAXCOUNT]. *)
Theorem calc_ppm_guards ox red nh3 s :
  (log10_defined s red nh3 \/ log10_domain_error s red nh3) /\
  ~ (log10_defined s red nh3 /\ log10_domain_error s red nh3) /\
  (log10_defined s red nh3 ->
   exists o r a,
     calc_ppm ox red nh3 s = (Return (o, r, a), s) /\
     (tunings s _base_ox = 0%R -> o = 0%R) /\
     (tunings s _base_red = 0%R -> r = 0%R) /\
     (tunings s _base_nh3 = 0%R -> a = 0%R)) /\
  (forall o r a s',
      calc_ppm ox red nh3 s = (Return (o, r, a), s') ->
      (tunings s _base_ox = 0%R -> o = 0%R) /\
      (tunings s _base_red = 0%R -> r = 0%R) /\
      (tunings s _base_nh3 = 0%R -> a = 0%R)) /\
  (tunings s _base_ox = 0%R -> tunings s _base_red = 0%R ->
   tunings s _base_nh3 = 0%R ->
   calc_ppm ox red nh3 s = (Return (0%R, 0%R, 0%R), s)) /\
  (log10_domain_error s red nh3 ->
   calc_ppm ox red nh3 s = (Raise ValueError, s) /\
   (flags s gasActive = true ->
    exists s',
      get_gas (Return tt) (Return (mkGas ox red nh3)) s = (Return tt, s') /\
      (forall g, In g (gauges_of ch_gas) -> gauges s' g = 0%R) /\
      counters s' gasCount =
        (if counters s gasCount + 1 >=? MAXCOUNT then MAXCOUNT
         else counters s gasCount + 1) /\
      flags s' gasActive = negb (counters s gasCount + 1 >=? MAXCOUNT))).
Proof.
  assert (Hret : forall o r a s',
             calc_ppm ox red nh3 s = (Return (o, r, a), s') ->
             (tunings s _base_ox = 0%R -> o = 0%R) /\
             (tunings s _base_red = 0%R -> r = 0%R) /\
             (tunings s _base_nh3 = 0%R -> a = 0%R)).
  { intros o r a s'. rewrite calc_ppm_unfold. unfold ppm_log, ppm_linear.
    destruct (Req_dec_T (tunings s _base_ox) 0);
      destruct (Req_dec_T (tunings s _base_red) 0);
      destruct (Req_dec_T (tunings s _base_nh3) 0);
      try destruct (Rle_dec (red / tunings s _base_red) 0);
      try destruct (Rle_dec (nh3 / tunings s _base_nh3) 0);
      intros E; inversion E; subst;
      repeat split; intros; solve [reflexivity | contradiction]. }
  destruct (log10_cases s red nh3) as [Hcases Hexcl].
  split; [exact Hcases |]. split; [exact Hexcl |].
  split; [| split; [exact Hret | split]].
  - intros Hd.
    destruct (calc_ppm_returns ox red nh3 s Hd) as [[[o r] a] E].
    exists o, r, a. split; [exact E |]. exact (Hret o r a s E).
  - intros Ho Hr Hn. rewrite calc_ppm_unfold. unfold ppm_log, ppm_linear.
    destruct (Req_dec_T (tunings s _base_ox) 0); [| contradiction].
    destruct (Req_dec_T (tunings s _base_red) 0); [| contradiction].
    destruct (Req_dec_T (tunings s _base_nh3) 0); [| contradiction].
    reflexivity.
  - intros H. pose proof (calc_ppm_raises ox red nh3 s H) as E.
    split; [exact E |]. intros Ha.
    destruct (get_gas_conversion_error ox red nh3 s H Ha)
      as (s' & E' & G & C & A & _).
    exists s'; auto.
Qed.

Lemma calc_ppm_guards_witness :
  log10_domain_error boot0 0 1 /\
  calc_ppm 1 0 1 boot0 = (Raise ValueError, boot0).
Proof.
  assert (H : log10_domain_error boot0 0 1) by (left; cbn; split; lra).
  split; [exact H |].
  exact (proj1 (proj2 (proj2 (proj2 (proj2 (proj2
           (calc_ppm_guards 1 0 1 boot0))))) H)).
Defined.

(** C5 (as the code has it).  Two consecutive cycles with factor 1 and a
    raw temperature of 20: the CPU reads 50 degrees during the first cycle
    and 60 degrees during the second.  [get_temperature] reads the CPU
    temperature twice per cycle and builds its window anew from the first
    of the two reads, so the second cycle averages 60 and reports -20; the
    window of the specification, kept from the first cycle, averages 52 and
    gives -12. *)
Theorem compensation_window_rebuilt_each_cycle :
  let th := fun k : nat => if (k <? 2)%nat then 50000 else 60000 in
  let s1 := snd (get_temperature (Some 1%R) (Return 20%R) (boot th)) in
  let s2 := snd (get_temperature (Some 1%R) (Return 20%R) s1) in
  cpu_reads s1 = 2%nat /\
  cpu_reads s2 = 4%nat /\
  gauges s1 TEMPERATURE = (-10)%R /\
  gauges s2 TEMPERATURE = (-20)%R /\
  spec_temperature 20 (spec_avg_cpu_temp [50%R; 60%R]) 1 = (-12)%R.
Proof.
  intros th s1 s2.
  assert (H1 : (1 <> 0)%R) by lra.
  destruct (get_temperature_compensated 1 20 (boot th) H1 eq_refl)
    as (s1' & E1 & G1 & R1 & T1 & F1 & _).
  assert (Es1 : s1 = s1') by (unfold s1; rewrite E1; reflexivity).
  destruct (get_temperature_compensated 1 20 s1' H1
              (eq_trans (F1 tempActive) eq_refl))
    as (s2' & E2 & G2 & R2 & _).
  assert (Es2 : s2 = s2') by (unfold s2; rewrite Es1, E2; reflexivity).
  rewrite Es1, Es2, R2, R1, G1, G2, T1, R1.
  cbn [boot thermal_zone0 cpu_reads]. unfold th. cbn [Nat.ltb Nat.leb].
  repeat split; try lra.
  unfold spec_temperature, spec_avg_cpu_temp, spec_window, sum, float_len.
  cbn [fold_left repeat tl app List.length].
  replace (INR 5) with 5%R by (simpl; lra). lra.
Qed.

(** C6, counterexample.  An ADC reading of 0.01: [get_o2] rounds the
    reading, not the percentage, and sets the gauge to 0.106; the
    percentage rounded to two decimals is 0.11. *)
Lemma o2_percentage_not_rounded :
  gauges (snd (get_o2 (Return 0.01%R) boot0)) O2 = 0.106%R /\
  round (((0.01 * 0.212) / 2.0) * 100) 2 = 0.11%R /\
  gauges (snd (get_o2 (Return 0.01%R) boot0)) O2
    <> round (((0.01 * 0.212) / 2.0) * 100) 2.
Proof.
  assert (G : gauges (snd (get_o2 (Return 0.01%R) boot0)) O2 = 0.106%R).
  { cbn -[round]. rewrite round_example_1. lra. }
  assert (C : round (((0.01 * 0.212) / 2.0) * 100) 2 = 0.11%R).
  { replace (((0.01 * 0.212) / 2.0) * 100)%R with 0.106%R by lra.
    apply round_example_2. }
  split; [exact G |]. split; [exact C |].
  rewrite G, C. lra.
Qed.

(** C6, amended.  On a successful read of an active O2 channel the gauge is
    set to, and the histogram observes, [((a * 0.212) / 2.0) * 100] where
    [a] is the ADC reading rounded to two decimals; the percentage itself
    is not rounded.  A reading of 2.0 gives 21.2. *)
Theorem get_o2_reports_percentage_of_rounded_adc adc s :
  flags s o2Active = true ->
  let s' := snd (get_o2 (Return adc) s) in
  fst (get_o2 (Return adc) s) = Return tt /\
  gauges s' O2 = (((round adc 2 * 0.212) / 2.0) * 100)%R /\
  observations s' O2_HIST =
    observations s O2_HIST ++ [(((round adc 2 * 0.212) / 2.0) * 100)%R] /\
  (adc = 2.0%R -> gauges s' O2 = 21.2%R).
Proof.
  intros Ha; cbv zeta. unfold get_o2, bind, load_flag. rewrite Ha.
  cbn -[round].
  split; [reflexivity |]. split; [reflexivity |]. split; [reflexivity |].
  intros ->. replace 2.0%R with (IZR 2) by lra.
  rewrite round_2_of_integer. lra.
Qed.

Lemma get_o2_reports_percentage_of_rounded_adc_witness :
  flags boot0 o2Active = true /\
  gauges (snd (get_o2 (Return 2.0%R) boot0)) O2 = 21.2%R.
Proof.
  split; [reflexivity |].
  exact (proj2 (proj2 (proj2
           (get_o2_reports_percentage_of_rounded_adc 2.0 boot0 eq_refl)))
           eq_refl).
Defined.

(** C7.  On a successful read of an active particulate channel the three
    gauges are set to the cumulative values as read, and the histograms
    observe PM1, PM2.5 - PM1 and PM10 - PM2.5. *)
Theorem get_particulates_reports_deltas d s :
  flags s partActive = true ->
  let s' := snd (get_particulates (Return d) s) in
  fst (get_particulates (Return d) s) = Return tt /\
  gauges s' PM1 = float (pm1_0 d) /\
  gauges s' PM25 = float (pm2_5 d) /\
  gauges s' PM10 = float (pm10_0 d) /\
  observations s' PM1_HIST = observations s PM1_HIST ++ [float (pm1_0 d)] /\
  observations s' PM25_HIST =
    observations s PM25_HIST ++ [float (pm2_5 d - pm1_0 d)] /\
  observations s' PM10_HIST =
    observations s PM10_HIST ++ [float (pm10_0 d - pm2_5 d)].
Proof.
  intros Ha; cbv zeta. unfold get_particulates, bind, load_flag. rewrite Ha.
  cbn. repeat split.
Qed.

(** PM1 = 10, PM2.5 = 15, PM10 = 20: the histograms observe 10, 5 and 5. *)
Lemma get_particulates_reports_deltas_witness :
  flags boot0 partActive = true /\
  (let s' := snd (get_particulates (Return (mkPms 10 15 20)) boot0) in
   gauges s' PM1 = 10%R /\ gauges s' PM25 = 15%R /\ gauges s' PM10 = 20%R /\
   observations s' PM1_HIST = [10%R] /\
   observations s' PM25_HIST = [5%R] /\
   observations s' PM10_HIST = [5%R]).
Proof.
  split; [reflexivity |].
  destruct (get_particulates_reports_deltas (mkPms 10 15 20) boot0 eq_refl)
    as (_ & G1 & G2 & G3 & H1 & H2 & H3).
  repeat split; assumption.
Defined.

(** C8, counterexample.  The gas channel active with a streak of 0, every
    driver call returns, the reducing-gas reading is 0: the conversion
    raises inside the [try] of [get_gas], the streak goes to 1 and, on the
    next such cycle, to 2 with the channel switched off. *)
Lemma gas_success_changes_streak :
  read_succeeds ch_gas (all_return (mkGas 1 0 1)) = true /\
  flags boot0 gasActive = true /\
  counters boot0 gasCount = 0 /\
  map (health ch_gas) (run (get ch_gas None (all_return (mkGas 1 0 1))) 2 boot0)
  = [(Return tt, true, 1, zeros ch_gas); (Return tt, false, 2, zeros ch_gas)].
Proof.
  split; [reflexivity |]. split; [reflexivity |]. split; [reflexivity |].
  cbn [get all_return gas_enable_adc gas_read_all].
  destruct (get_gas_conversion_error 1 0 1 boot0 boot0_domain_error eq_refl)
    as (s1 & E1 & G1 & C1 & A1 & T1).
  cbn in C1, A1.
  assert (D1 : log10_domain_error s1 0 1).
  { unfold log10_domain_error; rewrite T1; exact boot0_domain_error. }
  destruct (get_gas_conversion_error 1 0 1 s1 D1 A1)
    as (s2 & E2 & G2 & C2 & A2 & _).
  rewrite C1 in C2, A2; cbn in C2, A2.
  rewrite (run_return _ _ _ _ E1), (run_return _ _ _ _ E2).
  cbn [run map]. unfold health. cbn [fst snd active_of count_of].
  rewrite C1, C2, A1, A2, !gauges_zero by assumption.
  reflexivity.
Qed.

(** C8, amended.  For every channel and every state in which it is active,
    a cycle in which every driver call of the channel returns and, for the
    gas channel, the conversion of the readings raises nothing, leaves every
    streak and every active flag as they were and stores to no counter. *)
Theorem success_leaves_health_unchanged ch factor d s :
  flags s (active_of ch) = true ->
  read_succeeds ch d = true ->
  (forall r, ch = ch_gas -> gas_read_all d = Return r ->
             log10_defined s (reducing r) (nh3 r)) ->
  exists s',
    get ch factor d s = (Return tt, s') /\
    (forall f, flags s' f = flags s f) /\
    (forall c, counters s' c = counters s c) /\
    stores s' = stores s.
Proof.
  intros Ha Hr Hg. exact (ok_step ch factor d s Hr Ha Hg).
Qed.

Lemma success_leaves_health_unchanged_witness :
  flags boot0 (active_of ch_gas) = true /\
  read_succeeds ch_gas (all_return (mkGas 1 1 1)) = true /\
  exists s',
    get ch_gas None (all_return (mkGas 1 1 1)) boot0 = (Return tt, s') /\
    (forall f, flags s' f = flags boot0 f) /\
    (forall c, counters s' c = counters boot0 c) /\
    stores s' = stores boot0.
Proof.
  split; [reflexivity |]. split; [reflexivity |].
  apply (success_leaves_health_unchanged ch_gas None
           (all_return (mkGas 1 1 1)) boot0);
    [reflexivity | reflexivity |].
  intros r _ H; inversion H; subst.
  unfold log10_defined, boot0, boot; cbn; split; right; lra.
Defined.

(** The inactive path of [get_temperature], taken on its own: with the
    channel switched off and the streak at [MAXCOUNT] it first adds 1 to
    the counter, which stores [MAXCOUNT + 1], and then takes 1 off again;
    the channel ends the cycle as it started it.  The process never starts
    a cycle in this state ([reachable_temperature_fresh]). *)
Theorem temperature_cooldown_overshoots factor r th :
  let s := deactivated ch_temperature (boot th) in
  let s' := snd (get_temperature factor r s) in
  flags s tempActive = false /\
  counters s tempCount = MAXCOUNT /\
  stores s' =
    stores s ++ [(tempCount, MAXCOUNT + 1); (tempCount, MAXCOUNT)] /\
  ~ in_range (MAXCOUNT + 1) /\
  flags s' tempActive = false /\
  counters s' tempCount = MAXCOUNT.
Proof.
  cbv zeta.
  set (s := deactivated ch_temperature (boot th)).
  assert (Ha : flags s tempActive = false) by reflexivity.
  assert (Hc : counters s tempCount = MAXCOUNT) by reflexivity.
  assert (Hm : MINCOUNT <= counters s tempCount) by (rewrite Hc; discriminate).
  destruct (get_temperature_idle factor r s Ha Hm)
    as (s' & E & _ & A & C & St).
  rewrite E; cbn [snd]. rewrite St, A, C, Hc.
  repeat split; try reflexivity.
  unfold in_range, MINCOUNT, MAXCOUNT; lia.
Qed.

(** C10.  Lux and proximity share [lightActive] and [lightCount]: in a
    cycle in which the channel is inactive, or in which the lux read or the
    proximity read that follows it ends in a fault of the driver contract,
    [get_light] returns with both gauges at 0 and makes one transition of
    the one health state: on a failed read of the active channel
    [lightCount] is raised by 1, clamped to [MAXCOUNT], and [lightActive]
    is cleared when the bound is reached; on an inactive cycle [lightCount]
    is lowered by 1 while it is above [MINCOUNT], and otherwise
    [lightActive] is set again.  No flag and no counter other than
    [lightActive] and [lightCount] changes. *)
Theorem light_gauges_zeroed_together d s :
  flags s lightActive = false \/ read_fails ch_light d = true ->
  exists s',
    get_light (ltr559_get_lux d) (ltr559_get_proximity d) s = (Return tt, s') /\
    gauges s' LUX = 0%R /\
    gauges s' PROXIMITY = 0%R /\
    (flags s lightActive = true ->
     counters s' lightCount =
       (if counters s lightCount + 1 >=? MAXCOUNT then MAXCOUNT
        else counters s lightCount + 1) /\
     flags s' lightActive = negb (counters s lightCount + 1 >=? MAXCOUNT)) /\
    (flags s lightActive = false ->
     counters s' lightCount =
       (if counters s lightCount >? MINCOUNT
        then counters s lightCount - 1 else MINCOUNT) /\
     flags s' lightActive = negb (counters s lightCount >? MINCOUNT)) /\
    (forall f, f <> lightActive -> flags s' f = flags s f) /\
    (forall c, c <> lightCount -> counters s' c = counters s c).
Proof.
  intros H.
  assert (Hch : ch_light <> ch_temperature) by discriminate.
  destruct (flags s lightActive) eqn:Ha.
  - destruct H as [H | H]; [discriminate |].
    destruct (fail_step ch_light None d s Hch H Ha)
      as (s' & E & C & A & G & F & K).
    exists s'. split; [exact E |].
    split; [apply G; cbn; auto |]. split; [apply G; cbn; auto |].
    split; [intros _; split; [exact C | exact A] |].
    split; [discriminate |]. split; assumption.
  - destruct (idle_step ch_light None d s Hch Ha)
      as (s' & E & C & A & G & F & K).
    exists s'. split; [exact E |].
    split; [apply G; cbn; auto |]. split; [apply G; cbn; auto |].
    split; [discriminate |].
    split; [intros _; split; [exact C | exact A] |]. split; assumption.
Qed.

Lemma light_gauges_zeroed_together_witness :
  (flags boot0 lightActive = false
   \/ read_fails ch_light (all_raise RuntimeError) = true) /\
  exists s',
    get_light (Raise RuntimeError) (Raise RuntimeError) boot0
      = (Return tt, s') /\
    gauges s' LUX = 0%R /\
    gauges s' PROXIMITY = 0%R /\
    counters s' lightCount = 1 /\
    flags s' lightActive = true.
Proof.
  split; [right; reflexivity |].
  destruct (light_gauges_zeroed_together (all_raise RuntimeError) boot0
              (or_intror eq_refl)) as (s' & E & G1 & G2 & Hact & _).
  exists s'. split; [exact E |]. split; [exact G1 |]. split; [exact G2 |].
  exact (Hact eq_refl).
Defined.

(** * Further properties *)

(** ** What an update writes *)

Ltac not_own H :=
  let E := fresh in intro E; apply H; cbn; rewrite E; auto 6.

Ltac own_frame :=
  cbn;
  repeat match goal with
  | H : ~ _ |- context [update _ _ ?k _ _] =>
      rewrite (update_neq _ _ k) by (not_own H)
  end;
  rewrite ?update_neq by assumption;
  try reflexivity.

Lemma writes_only_own ch factor d s :
  let s' := snd (get ch factor d s) in
  (forall f, f <> active_of ch -> flags s' f = flags s f) /\
  (forall c, c <> count_of ch -> counters s' c = counters s c) /\
  (forall g, ~ In g (gauges_of ch) -> gauges s' g = gauges s g) /\
  (forall h, ~ In h (hists_of ch) -> observations s' h = observations s h) /\
  tunings s' = tunings s /\
  thermal_zone0 s' = thermal_zone0 s.
Proof.
  cbv zeta.
  destruct ch; destruct d; unfold_get.
  - (* temperature *)
    destruct factor as [f |];
      cbv [bind load_flag try_except call ret raise local truthy truediv
           get_cpu_temperature iadd isub load store store_flag Gauge_set
           logging_error reset_i2c];
      explore s; cbn; (repeat split; intros; own_frame).
  - explore s; cbn; (repeat split; intros; own_frame).

  - explore s; cbn; (repeat split; intros; own_frame).
  - explore s; cbn; (repeat split; intros; own_frame).
  - explore s; cbn; try solve [repeat split; intros; own_frame].
    cbv [try_except_else bind call]; rewrite calc_ppm_unfold.
    destruct (ppm_log _ _ _) as [r | e];
      [destruct (ppm_log _ _ _) as [r' | e] |];
      explore s; cbn; (repeat split; intros; own_frame).
  - explore s; cbn; (repeat split; intros; own_frame).
  - explore s; cbn; (repeat split; intros; own_frame).
  - explore s; cbn; (repeat split; intros; own_frame).
Qed.

Lemma own_disjoint ch ch' :
  ch <> ch' ->
  active_of ch' <> active_of ch /\
  count_of ch' <> count_of ch /\
  (forall g, In g (gauges_of ch') -> ~ In g (gauges_of ch)) /\
  (forall h, In h (hists_of ch') -> ~ In h (hists_of ch)).
Proof.
  intros H; destruct ch, ch'; try congruence; cbn;
    (split; [discriminate |]); (split; [discriminate |]);
    split; intros x Hx Hy;
    repeat match goal with
    | H : _ \/ _ |- _ => destruct H
    | H : False |- _ => contradiction
    end; congruence.
Qed.

Lemma untouched_refl ch s : untouched ch s s.
Proof. repeat split. Qed.

Lemma untouched_trans ch s1 s2 s3 :
  untouched ch s1 s2 -> untouched ch s2 s3 -> untouched ch s1 s3.
Proof.
  intros (F1 & C1 & G1 & H1) (F2 & C2 & G2 & H2).
  repeat split; intros; try congruence.
  - rewrite G2, G1 by assumption; reflexivity.
  - rewrite H2, H1 by assumption; reflexivity.
Qed.

Lemma bind_untouched {A B} ch (m : py A) (k : A -> py B) s :
  (forall s0, untouched ch s0 (snd (m s0))) ->
  (forall a s0, untouched ch s0 (snd (k a s0))) ->
  untouched ch s (snd (bind m k s)).
Proof.
  intros Hm Hk. unfold bind. specialize (Hm s).
  destruct (m s) as [[a | e] s1]; cbn [snd] in *; [| exact Hm].
  exact (untouched_trans ch s s1 _ Hm (Hk a s1)).
Qed.

(** An update of one channel leaves the flag, the streak, the gauges and
    the histograms of every other channel as they were, whatever the
    drivers do and whether the update returns or raises. *)
Theorem update_leaves_other_channels ch ch' factor d s :
  ch <> ch' ->
  untouched ch' s (snd (get ch factor d s)).
Proof.
  intros H.
  destruct (own_disjoint ch ch' H) as (Hf & Hc & Hg & Hh).
  destruct (writes_only_own ch factor d s) as (F & C & G & O & _).
  repeat split.
  - apply F; exact Hf.
  - apply C; exact Hc.
  - intros g Hin; apply G, Hg, Hin.
  - intros h Hin; apply O, Hh, Hin.
Qed.

Lemma update_leaves_other_channels_witness :
  ch_gas <> ch_pressure /\
  untouched ch_pressure boot0
    (snd (get ch_gas None (all_raise RuntimeError) boot0)).
Proof.
  assert (H : ch_gas <> ch_pressure) by discriminate.
  split; [exact H |].
  exact (update_leaves_other_channels ch_gas ch_pressure None
           (all_raise RuntimeError) boot0 H).
Defined.

Lemma poll_reduced_untouched ch factor d s :
  In ch [ch_gas; ch_o2; ch_particulates; ch_co2] ->
  untouched ch s (snd (poll factor true d s)).
Proof.
  intros Hin.
  assert (N : ch_temperature <> ch /\ ch_pressure <> ch /\
              ch_humidity <> ch /\ ch_light <> ch).
  { cbn in Hin; repeat split; intros <-;
      repeat (destruct Hin as [Hin | Hin]; try discriminate Hin);
      contradiction. }
  destruct N as (N1 & N2 & N3 & N4).
  unfold poll.
  apply bind_untouched;
    [intros s0; exact (update_leaves_other_channels ch_temperature ch factor d s0 N1) |].
  intros _ s1. apply bind_untouched;
    [intros s0; exact (update_leaves_other_channels ch_pressure ch factor d s0 N2) |].
  intros _ s2. apply bind_untouched;
    [intros s0; exact (update_leaves_other_channels ch_humidity ch factor d s0 N3) |].
  intros _ s3. apply bind_untouched;
    [intros s0; exact (update_leaves_other_channels ch_light ch factor d s0 N4) |].
  intros _ s4. cbn [negb]. apply untouched_refl.
Qed.

(** With the reduced sensor set ([args.enviro] true) the gas, O2,
    particulate and CO2 channels are never polled: however many cycles the
    loop runs and whatever the drivers do, their flags, streaks, gauges and
    histograms stay as start-up left them. *)
Theorem reduced_set_never_polled ch factor ds s :
  In ch [ch_gas; ch_o2; ch_particulates; ch_co2] ->
  untouched ch s (snd (main_loop factor true ds s)).
Proof.
  intros Hin. revert s.
  induction ds as [| d ds IH]; intros s; [apply untouched_refl |].
  cbn [main_loop]. apply bind_untouched.
  - intros s0; exact (poll_reduced_untouched ch factor d s0 Hin).
  - intros _ s0; exact (IH s0).
Qed.

Lemma reduced_set_never_polled_witness :
  In ch_co2 [ch_gas; ch_o2; ch_particulates; ch_co2] /\
  untouched ch_co2 boot0
    (snd (main_loop None true
            [all_return (mkGas 1 1 1); all_raise RuntimeError] boot0)).
Proof.
  assert (H : In ch_co2 [ch_gas; ch_o2; ch_particulates; ch_co2])
    by (cbn; auto).
  split; [exact H |].
  exact (reduced_set_never_polled ch_co2 None
           [all_return (mkGas 1 1 1); all_raise RuntimeError] boot0 H).
Defined.

(** ** The duty cycle under a failing driver *)

Lemma degraded_step ch factor d s :
  ch <> ch_temperature ->
  flags s (active_of ch) = false \/ read_fails ch d = true ->
  exists s',
    get ch factor d s = (Return tt, s') /\
    health_of ch s' = degrade (health_of ch s) /\
    (forall g, In g (gauges_of ch) -> gauges s' g = 0%R).
Proof.
  intros Hch H. unfold health_of, degrade.
  destruct (flags s (active_of ch)) eqn:Ha.
  - destruct H as [H | H]; [discriminate |].
    destruct (fail_step ch factor d s Hch H Ha) as (s' & E & C & A & G & _).
    exists s'. split; [exact E |]. split; [| exact G].
    rewrite C, A. destruct (counters s (count_of ch) + 1 >=? MAXCOUNT);
      reflexivity.
  - destruct (idle_step ch factor d s Hch Ha) as (s' & E & C & A & G & _).
    exists s'. split; [exact E |]. split; [| exact G].
    rewrite C, A. destruct (counters s (count_of ch) >? MINCOUNT);
      reflexivity.
Qed.

Lemma updates_cons ch factor d ds s s1 :
  get ch factor d s = (Return tt, s1) ->
  updates ch factor (d :: ds) s = updates ch factor ds s1.
Proof. intros E; cbn [updates]; unfold bind; rewrite E; reflexivity. Qed.

Lemma degraded_run ch factor ds s :
  ch <> ch_temperature ->
  Forall (fun d => read_fails ch d = true) ds ->
  exists s',
    updates ch factor ds s = (Return tt, s') /\
    health_of ch s' = iterate degrade (List.length ds) (health_of ch s) /\
    (ds <> [] -> forall g, In g (gauges_of ch) -> gauges s' g = 0%R).
Proof.
  intros Hch Hds. revert s.
  induction Hds as [| d ds Hd Hds IH]; intros s.
  - exists s; repeat split; congruence.
  - destruct (degraded_step ch factor d s Hch (or_intror Hd))
      as (s1 & E1 & H1 & G1).
    destruct (IH s1) as (s' & E & H & G).
    exists s'. rewrite (updates_cons _ _ _ _ _ _ E1).
    split; [exact E |]. split.
    + cbn [List.length iterate]. rewrite <- H1. exact H.
    + intros _. destruct ds as [| d' ds'].
      * cbn in E; inversion E; subst; exact G1.
      * apply G; discriminate.
Qed.

Lemma iterate_add {A} (f : A -> A) n m x :
  iterate f (n + m) x = iterate f m (iterate f n x).
Proof. revert x; induction n as [| n IH]; intros x; cbn; auto. Qed.

Lemma iterate_period {A} (f : A -> A) p x q :
  iterate f p x = x -> iterate f (q * p) x = x.
Proof.
  intros H; induction q as [| q IH]; [reflexivity |].
  cbn [Nat.mul]. rewrite iterate_add, H. exact IH.
Qed.

Lemma degrade_orbit n :
  iterate degrade n (true, MINCOUNT) =
  nth (n mod 5) [(true, 0); (true, 1); (false, 2); (false, 1); (false, 0)]
      (true, 0).
Proof.
  rewrite (Nat.div_mod_eq n 5) at 1.
  rewrite (Nat.mul_comm 5), iterate_add, iterate_period by reflexivity.
  pose proof (Nat.mod_upper_bound n 5 ltac:(discriminate)) as Hr.
  destruct (n mod 5)%nat as [| [| [| [| [| r]]]]]; try reflexivity; lia.
Qed.

(** A channel other than temperature whose driver fails on every attempt,
    starting active with a streak of 0: every cycle returns normally with
    the gauges at 0, and the health state after [n] cycles depends on
    [n mod 5] only: (active, 1), (inactive, 2), (inactive, 1),
    (inactive, 0), (active, 0) and so on. *)
Theorem permanent_failure_has_period_five ch factor ds s :
  ch <> ch_temperature ->
  Forall (fun d => read_fails ch d = true) ds ->
  health_of ch s = (true, MINCOUNT) ->
  exists s',
    updates ch factor ds s = (Return tt, s') /\
    health_of ch s' =
      nth (List.length ds mod 5)
          [(true, 0); (true, 1); (false, 2); (false, 1); (false, 0)]
          (true, 0) /\
    (ds <> [] -> forall g, In g (gauges_of ch) -> gauges s' g = 0%R).
Proof.
  intros Hch Hds H0.
  destruct (degraded_run ch factor ds s Hch Hds) as (s' & E & H & G).
  exists s'. split; [exact E |]. split; [| exact G].
  rewrite H, H0. apply degrade_orbit.
Qed.

Lemma permanent_failure_has_period_five_witness :
  ch_co2 <> ch_temperature /\
  Forall (fun d => read_fails ch_co2 d = true)
         (repeat (all_raise OSError) 7) /\
  health_of ch_co2 boot0 = (true, MINCOUNT) /\
  exists s',
    updates ch_co2 None (repeat (all_raise OSError) 7) boot0
      = (Return tt, s') /\
    health_of ch_co2 s' = (false, 2).
Proof.
  assert (H1 : ch_co2 <> ch_temperature) by discriminate.
  assert (H2 : Forall (fun d => read_fails ch_co2 d = true)
                      (repeat (all_raise OSError) 7))
    by (repeat constructor).
  assert (H3 : health_of ch_co2 boot0 = (true, MINCOUNT)) by reflexivity.
  split; [exact H1 |]. split; [exact H2 |]. split; [exact H3 |].
  destruct (permanent_failure_has_period_five ch_co2 None
              (repeat (all_raise OSError) 7) boot0 H1 H2 H3)
    as (s' & E & H & _).
  exists s'; split; [exact E | exact H].
Defined.

(** An inactive channel other than temperature with a streak of [c >= 0]:
    no driver outcome matters, the channel stays inactive for [c] cycles,
    counting down, and the cycle after that switches it on again with a
    streak of 0.  Cool-down always ends. *)
Theorem cooldown_reactivates ch factor ds s c :
  ch <> ch_temperature ->
  health_of ch s = (false, c) ->
  0 <= c ->
  Z.of_nat (List.length ds) <= c + 1 ->
  exists s',
    updates ch factor ds s = (Return tt, s') /\
    health_of ch s' =
      (if Z.of_nat (List.length ds) =? c + 1 then (true, MINCOUNT)
       else (false, c - Z.of_nat (List.length ds))).
Proof.
  intros Hch. revert s c.
  induction ds as [| d ds IH]; intros s c H0 Hc Hn.
  - exists s. split; [reflexivity |]. cbn [List.length Z.of_nat].
    rewrite H0. destruct (Z.eqb_spec 0 (c + 1)); [lia |].
    f_equal; lia.
  - assert (Ha : flags s (active_of ch) = false)
      by (unfold health_of in H0; congruence).
    assert (Hcnt : counters s (count_of ch) = c)
      by (unfold health_of in H0; congruence).
    destruct (idle_step ch factor d s Hch Ha) as (s1 & E1 & C1 & A1 & _).
    rewrite (updates_cons _ _ _ _ _ _ E1).
    cbn [List.length] in Hn |- *. rewrite Nat2Z.inj_succ in Hn |- *.
    rewrite Hcnt in C1, A1. unfold MINCOUNT in *.
    destruct (Z.gtb_spec c 0) as [Hpos | Hzero]; cbn [negb] in A1.
    + destruct (IH s1 (c - 1)) as (s' & E & H);
        [unfold health_of; rewrite A1, C1; reflexivity | lia | lia |].
      exists s'. split; [exact E |]. rewrite H.
      destruct (Z.eqb_spec (Z.of_nat (List.length ds)) (c - 1 + 1));
        destruct (Z.eqb_spec (Z.succ (Z.of_nat (List.length ds))) (c + 1));
        try lia; [reflexivity | f_equal; lia].
    + assert (Hc0 : c = 0) by lia.
      destruct ds as [| d' ds']; [| cbn [List.length] in Hn; lia].
      exists s1. split; [reflexivity |].
      unfold health_of; rewrite A1, C1, Hc0. reflexivity.
Qed.

Lemma cooldown_reactivates_witness :
  ch_o2 <> ch_temperature /\
  health_of ch_o2 (deactivated ch_o2 boot0) = (false, 2) /\
  exists s',
    updates ch_o2 None (repeat (all_return (mkGas 1 1 1)) 3)
            (deactivated ch_o2 boot0) = (Return tt, s') /\
    health_of ch_o2 s' = (true, MINCOUNT).
Proof.
  assert (H1 : ch_o2 <> ch_temperature) by discriminate.
  split; [exact H1 |]. split; [reflexivity |].
  exact (cooldown_reactivates ch_o2 None (repeat (all_return (mkGas 1 1 1)) 3)
           (deactivated ch_o2 boot0) 2 H1 eq_refl
           ltac:(discriminate) ltac:(discriminate)).
Defined.

(** ** Successes between failures *)

Lemma clean_read_tunings ch d s s' :
  tunings s' = tunings s -> clean_read ch d s -> clean_read ch d s'.
Proof.
  intros T [H1 H2]; split; [exact H1 |].
  intros r Hg Hr. specialize (H2 r Hg Hr).
  unfold log10_defined in *. rewrite T. exact H2.
Qed.

Lemma clean_run ch factor ds s :
  flags s (active_of ch) = true ->
  Forall (fun d => clean_read ch d s) ds ->
  exists s',
    updates ch factor ds s = (Return tt, s') /\
    health_of ch s' = health_of ch s /\
    tunings s' = tunings s.
Proof.
  intros Ha Hds. revert s Ha Hds.
  induction ds as [| d ds IH]; intros s Ha Hds.
  - exists s; repeat split.
  - inversion Hds as [| d0 ds0 [Hr Hg] Hrest]; subst.
    destruct (ok_step ch factor d s Hr Ha Hg) as (s1 & E1 & F1 & C1 & _).
    assert (T1 : tunings s1 = tunings s).
    { pose proof (writes_only_own ch factor d s) as W; cbv zeta in W.
      rewrite E1 in W; cbn [snd] in W. tauto. }
    destruct (IH s1) as (s' & E & H & T).
    + rewrite F1; exact Ha.
    + eapply Forall_impl; [| exact Hrest].
      intros d'; apply clean_read_tunings; exact T1.
    + exists s'. rewrite (updates_cons _ _ _ _ _ _ E1).
      split; [exact E |]. unfold health_of in *.
      rewrite F1, C1 in H. split; [exact H | congruence].
Qed.

Lemma updates_app ch factor ds1 ds2 s s1 :
  updates ch factor ds1 s = (Return tt, s1) ->
  updates ch factor (ds1 ++ ds2) s = updates ch factor ds2 s1.
Proof.
  revert s; induction ds1 as [| d ds1 IH]; intros s E.
  - cbn in E; inversion E; reflexivity.
  - cbn [updates app] in *. unfold bind in *.
    destruct (get ch factor d s) as [[[] | e] s0]; [| discriminate].
    exact (IH s0 E).
Qed.

(** The streak is not reset by a success: for a channel other than
    temperature that starts active with a streak of 0, one failed read,
    then any number of cycles with successful reads, then one more failed
    read switch the channel off with the streak at [MAXCOUNT].  The two
    failures need not be consecutive. *)
Theorem failures_need_not_be_consecutive ch factor d1 oks d2 s :
  ch <> ch_temperature ->
  health_of ch s = (true, MINCOUNT) ->
  read_fails ch d1 = true ->
  Forall (fun d => clean_read ch d s) oks ->
  read_fails ch d2 = true ->
  exists s',
    updates ch factor (d1 :: oks ++ [d2]) s = (Return tt, s') /\
    health_of ch s' = (false, MAXCOUNT).
Proof.
  intros Hch H0 Hf1 Hok Hf2.
  destruct (degraded_step ch factor d1 s Hch (or_intror Hf1))
    as (s1 & E1 & H1 & _).
  rewrite H0 in H1; cbn in H1.
  assert (T1 : tunings s1 = tunings s).
  { pose proof (writes_only_own ch factor d1 s) as W; cbv zeta in W.
    rewrite E1 in W; cbn [snd] in W. tauto. }
  assert (Ha1 : flags s1 (active_of ch) = true)
    by (unfold health_of in H1; congruence).
  destruct (clean_run ch factor oks s1 Ha1) as (s2 & E2 & H2 & _).
  { eapply Forall_impl; [| exact Hok].
    intros d'; apply clean_read_tunings; exact T1. }
  destruct (degraded_step ch factor d2 s2 Hch (or_intror Hf2))
    as (s3 & E3 & H3 & _).
  rewrite H2, H1 in H3; cbn in H3.
  exists s3. rewrite (updates_cons _ _ _ _ _ _ E1).
  rewrite (updates_app _ _ _ _ _ _ E2).
  rewrite (updates_cons _ _ _ _ _ _ E3). split; [reflexivity | exact H3].
Qed.

Lemma failures_need_not_be_consecutive_witness :
  exists s',
    updates ch_pressure None
      (all_raise OSError :: repeat (all_return (mkGas 1 1 1)) 3
         ++ [all_raise ValueError]) boot0 = (Return tt, s') /\
    health_of ch_pressure s' = (false, MAXCOUNT).
Proof.
  apply (failures_need_not_be_consecutive ch_pressure None
           (all_raise OSError) (repeat (all_return (mkGas 1 1 1)) 3)
           (all_raise ValueError) boot0).
  - discriminate.
  - reflexivity.
  - reflexivity.
  - repeat (apply Forall_cons;
            [split; [reflexivity | intros r H; discriminate H] |]);
      apply Forall_nil.
  - reflexivity.
Defined.

(** ** What a degraded cycle emits *)

(** A cycle of a channel other than temperature that is inactive, or whose
    read fails: the update returns, every gauge of the channel is 0 and
    every histogram of the channel has observed exactly one more value,
    0.  The exported value is never missing. *)
Theorem degraded_cycle_emits_zero ch factor d s :
  ch <> ch_temperature ->
  flags s (active_of ch) = false \/ read_fails ch d = true ->
  exists s',
    get ch factor d s = (Return tt, s') /\
    (forall g, In g (gauges_of ch) -> gauges s' g = 0%R) /\
    (forall h, In h (hists_of ch) ->
               observations s' h = observations s h ++ [0%R]).
Proof.
  intros Hch H.
  destruct (flags s (active_of ch)) eqn:Ha.
  - destruct H as [H | Hf]; [discriminate |].
    destruct ch; try congruence; destruct d; cbn in Hf, Ha;
      split_read Hf; unfold_get; cbn; rewrite Ha; cbn;
      match goal with |- context [?a >=? ?b] => destruct (a >=? b) end; cbn;
      (eexists; split; [reflexivity |]); frame.
  - clear H.
    destruct ch; try congruence; destruct d; cbn in Ha;
      unfold_get; cbn; rewrite Ha; cbn;
      match goal with |- context [?a >? ?b] => destruct (a >? b) end; cbn;
      (eexists; split; [reflexivity |]); frame.
Qed.

Lemma degraded_cycle_emits_zero_witness :
  ch_gas <> ch_temperature /\
  exists s',
    get ch_gas None (all_raise RuntimeError) boot0 = (Return tt, s') /\
    (forall g, In g (gauges_of ch_gas) -> gauges s' g = 0%R) /\
    (forall h, In h (hists_of ch_gas) ->
               observations s' h = observations boot0 h ++ [0%R]).
Proof.
  assert (H : ch_gas <> ch_temperature) by discriminate.
  split; [exact H |].
  exact (degraded_cycle_emits_zero ch_gas None (all_raise RuntimeError) boot0
           H (or_intror eq_refl)).
Defined.

(** ** Bus recovery and logging *)

(** For a channel other than temperature: a failed read of an active
    channel runs [reset_i2c] exactly once, except for the particulate
    channel (a serial device), which never runs it; an inactive cycle and a
    successful read never run it.  A failed read and an inactive cycle log
    exactly one error, a successful read logs none. *)
Theorem bus_reset_once_per_failed_read ch factor d s :
  ch <> ch_temperature ->
  let s' := snd (get ch factor d s) in
  (flags s (active_of ch) = true -> read_fails ch d = true ->
   i2c_resets s' =
     (if channel_eq_dec ch ch_particulates
      then i2c_resets s else S (i2c_resets s)) /\
   List.length (errors s') = S (List.length (errors s))) /\
  (flags s (active_of ch) = false ->
   i2c_resets s' = i2c_resets s /\
   List.length (errors s') = S (List.length (errors s))) /\
  (flags s (active_of ch) = true -> clean_read ch d s ->
   i2c_resets s' = i2c_resets s /\ errors s' = errors s).
Proof.
  intros Hch; cbv zeta. split; [| split].
  - intros Ha Hf.
    destruct ch; try congruence; destruct d; cbn in Hf, Ha;
      split_read Hf; unfold_get; cbn; rewrite Ha; cbn;
      match goal with |- context [?a >=? ?b] => destruct (a >=? b) end; cbn;
      rewrite length_app; cbn; split; try reflexivity; lia.
  - intros Ha.
    destruct ch; try congruence; destruct d; cbn in Ha;
      unfold_get; cbn; rewrite Ha; cbn;
      match goal with |- context [?a >? ?b] => destruct (a >? b) end; cbn;
      rewrite length_app; cbn; split; try reflexivity; lia.
  - intros Ha [Hr Hg].
    destruct ch; try congruence; destruct d; cbn in Hr, Ha, Hg;
      try (split_read Hr;
           repeat match goal with
                  | p : scd4x_measurement |- _ => destruct p as [[[? ?] ?] ?]
                  end;
           unfold_get; cbn; rewrite Ha; cbn; split; reflexivity).
    split_read Hr.
    repeat match goal with u : unit |- _ => destruct u end.
    match goal with
    | r : gas_readings |- _ =>
        destruct (calc_ppm_returns (oxidising r) (reducing r) (nh3 r) s
                    (Hg r eq_refl eq_refl)) as [[[p0 p1] p2] E]
    end.
    cbn [get gas_enable_adc gas_read_all].
    match goal with
    | |- context [get_gas ?u ?r s] =>
        assert (Hs : exists s', get_gas u r s = (Return tt, s') /\
                                i2c_resets s' = i2c_resets s /\
                                errors s' = errors s)
    end.
    { unfold get_gas. unfold bind at 1, load_flag. rewrite Ha.
      unfold try_except_else, call. unfold bind at 1. unfold bind at 1.
      cbn zeta. rewrite E. cbn. eexists; repeat split. }
    destruct Hs as (s' & Es & Hs). rewrite Es. exact Hs.
Qed.

Lemma bus_reset_once_per_failed_read_witness :
  ch_o2 <> ch_temperature /\
  i2c_resets (snd (get ch_o2 None (all_raise OSError) boot0)) = 1%nat /\
  i2c_resets (snd (get ch_particulates None (all_raise OSError) boot0))
    = 0%nat.
Proof.
  assert (H1 : ch_o2 <> ch_temperature) by discriminate.
  assert (H2 : ch_particulates <> ch_temperature) by discriminate.
  split; [exact H1 |]. split.
  - exact (proj1 (proj1 (bus_reset_once_per_failed_read ch_o2 None
                           (all_raise OSError) boot0 H1) eq_refl eq_refl)).
  - exact (proj1 (proj1 (bus_reset_once_per_failed_read ch_particulates None
                           (all_raise OSError) boot0 H2) eq_refl eq_refl)).
Defined.

(** ** Start-up and the poll loop *)

(** Start-up, for every combination of device outcomes.  If the BME280
    cannot be constructed, start-up ends in [TypeError].  Otherwise it
    completes: the O2 and the particulate channel are inactive with the
    streak at [MAXCOUNT] exactly when their device failed, the CO2 channel
    is inactive with the streak at [MINCOUNT] exactly when its device
    failed, and the five other channels are active with the streak at
    [MINCOUNT]. *)
Theorem startup_outcome d th :
  match BME280_new d with
  | Raise _ => fst (startup d (boot th)) = Raise TypeError
  | Return _ =>
      exists s,
        startup d (boot th) = (Return tt, s) /\
        health_of ch_o2 s =
          (if returned (IOE_setup d) then (true, MINCOUNT)
           else (false, MAXCOUNT)) /\
        health_of ch_particulates s =
          (if returned (PMS5003_new d) then (true, MINCOUNT)
           else (false, MAXCOUNT)) /\
        health_of ch_co2 s = (returned (SCD4X_setup d), MINCOUNT) /\
        (forall ch,
            In ch [ch_temperature; ch_pressure; ch_humidity; ch_light;
                   ch_gas] ->
            health_of ch s = (true, MINCOUNT))
  end.
Proof.
  destruct d as [[[] | e1] [[] | e2] [[] | e3] [[] | e4]];
    cbn; try reflexivity;
    (eexists; split; [reflexivity |]); cbn;
    (split; [reflexivity |]); (split; [reflexivity |]);
    (split; [reflexivity |]);
    intros ch Hin;
    repeat (destruct Hin as [<- | Hin]; [reflexivity |]); contradiction.
Qed.

Lemma startup_healthy d th s :
  startup d (boot th) = (Return tt, s) -> forall ch, healthy ch s.
Proof.
  destruct d as [[[] | e1] [[] | e2] [[] | e3] [[] | e4]];
    cbn; intros H; inversion H; subst; intros ch;
    unfold healthy, in_range, MINCOUNT, MAXCOUNT; destruct ch; cbn;
    repeat split; intros; solve [lia | discriminate].
Qed.

Lemma untouched_healthy ch s s' :
  untouched ch s s' -> healthy ch s -> healthy ch s'.
Proof.
  intros (F & C & _) H. unfold healthy in *. rewrite F, C. exact H.
Qed.

Lemma step_healthy ch' factor d s s' :
  ch' <> ch_temperature ->
  get ch' factor d s = (Return tt, s') ->
  (forall ch, healthy ch s) ->
  forall ch, healthy ch s'.
Proof.
  intros Hch E H ch.
  destruct (channel_eq_dec ch' ch) as [<- | Hne].
  - pose proof (health_preserved ch' factor d s Hch (H ch')) as [P _].
    rewrite E in P; exact P.
  - destruct (own_disjoint ch' ch Hne) as (Hf & Hc & _).
    destruct (other_channels_untouched ch' factor d s _ _ Hch Hf Hc)
      as [F C].
    rewrite E in F, C; cbn [snd] in F, C.
    specialize (H ch). unfold healthy in *. rewrite F, C. exact H.
Qed.

Lemma poll_healthy factor enviro d s s' :
  temperature_fresh s ->
  poll factor enviro d s = (Return tt, s') ->
  (forall ch, healthy ch s) ->
  forall ch, healthy ch s'.
Proof.
  intros [Ha _] E H. unfold poll in E.
  apply bind_returns in E; destruct E as ([] & s1 & E1 & E).
  apply bind_returns in E; destruct E as ([] & s2 & E2 & E).
  apply bind_returns in E; destruct E as ([] & s3 & E3 & E).
  apply bind_returns in E; destruct E as ([] & s4 & E4 & E).
  assert (H1 : forall ch, healthy ch s1).
  { destruct (get_temperature_returns _ _ _ _ Ha E1) as (_ & F & C).
    intros ch; specialize (H ch); unfold healthy in *.
    rewrite F, C; exact H. }
  pose proof (step_healthy ch_pressure factor d s1 s2
                ltac:(discriminate) E2 H1) as H2.
  pose proof (step_healthy ch_humidity factor d s2 s3
                ltac:(discriminate) E3 H2) as H3.
  pose proof (step_healthy ch_light factor d s3 s4
                ltac:(discriminate) E4 H3) as H4.
  destruct enviro; cbn [negb] in E.
  - inversion E; subst; exact H4.
  - apply bind_returns in E; destruct E as ([] & s5 & E5 & E).
    apply bind_returns in E; destruct E as ([] & s6 & E6 & E).
    apply bind_returns in E; destruct E as ([] & s7 & E7 & E).
    pose proof (step_healthy ch_gas factor d s4 s5
                  ltac:(discriminate) E5 H4) as H5.
    pose proof (step_healthy ch_o2 factor d s5 s6
                  ltac:(discriminate) E6 H5) as H6.
    pose proof (step_healthy ch_particulates factor d s6 s7
                  ltac:(discriminate) E7 H6) as H7.
    exact (step_healthy ch_co2 factor d s7 s'
             ltac:(discriminate) E H7).
Qed.

(** Every state in which a poll cycle of the process can start (after a
    completed start-up and any number of completed cycles, whatever the
    devices and drivers did): the temperature channel is active with a
    streak of 0, and every channel has its streak within
    [[MINCOUNT, MAXCOUNT]], below [MAXCOUNT] while it is active. *)
Theorem process_invariant factor enviro s :
  reachable factor enviro s ->
  temperature_fresh s /\ forall ch, healthy ch s.
Proof.
  induction 1 as [d th s H | d s s' Hr [IHf IHh] H].
  - split; [exact (startup_temperature_fresh d th s H) |].
    exact (startup_healthy d th s H).
  - split; [exact (poll_temperature_fresh factor enviro d s s' IHf H) |].
    exact (poll_healthy factor enviro d s s' IHf H IHh).
Qed.

Lemma process_invariant_witness :
  reachable None false
    (snd (startup (mkDevices (Raise OSError) (Return tt) (Raise OSError)
                     (Raise OSError)) boot0)) /\
  forall ch,
    healthy ch
      (snd (startup (mkDevices (Raise OSError) (Return tt) (Raise OSError)
                       (Raise OSError)) boot0)).
Proof.
  assert (H : reachable None false
                (snd (startup (mkDevices (Raise OSError) (Return tt)
                                 (Raise OSError) (Raise OSError)) boot0)))
    by (apply (reach_startup None false
                 (mkDevices (Raise OSError) (Return tt) (Raise OSError)
                    (Raise OSError)) (fun _ => 45000));
        cbn; reflexivity).
  split; [exact H |].
  exact (proj2 (process_invariant None false _ H)).
Defined.

(** The bounds of the streak, for the seven updates that share the failure
    and the cool-down path: from a state in which the streak is within
    bounds, and below [MAXCOUNT] if the channel is active, every store the
    update makes to a counter is a store to the channel's own counter of a
    value within [[MINCOUNT, MAXCOUNT]], and the state it leaves is within
    the same bounds; this holds for every driver outcome, an exception the
    update does not handle included. *)
Theorem stores_stay_within_bounds ch factor d s :
  ch <> ch_temperature ->
  healthy ch s ->
  healthy ch (snd (get ch factor d s)) /\
  exists l,
    stores (snd (get ch factor d s)) = stores s ++ l /\
    Forall (store_in_range ch) l.
Proof. exact (health_preserved ch factor d s). Qed.

Lemma stores_stay_within_bounds_witness :
  ch_light <> ch_temperature /\
  healthy ch_light boot0 /\
  healthy ch_light (snd (get ch_light None (all_raise OSError) boot0)).
Proof.
  assert (H1 : ch_light <> ch_temperature) by discriminate.
  assert (H2 : healthy ch_light boot0).
  { split; [split; discriminate | intros _; reflexivity]. }
  split; [exact H1 |]. split; [exact H2 |].
  exact (proj1 (stores_stay_within_bounds ch_light None (all_raise OSError)
                  boot0 H1 H2)).
Defined.

(** *** Cycles the loop survives *)

Lemma ppm_log_raises x b k e : ppm_log x b k = Raise e -> e = ValueError.
Proof.
  unfold ppm_log. destruct (Req_dec_T b 0); [discriminate |].
  destruct (Rle_dec (x / b) 0); [| discriminate]. congruence.
Qed.

Ltac tolerated_goal :=
  first [ reflexivity
        | match goal with
          | H : tolerated _ _ = true |- _ => discriminate H
          end ].

Lemma well_behaved_returns ch factor d s :
  ch <> ch_temperature ->
  well_behaved d = true ->
  fst (get ch factor d s) = Return tt.
Proof.
  intros Hch H. destruct d. unfold well_behaved in H. cbn in H.
  repeat (apply andb_prop in H; destruct H as [H ?]).
  destruct ch; try congruence; unfold_get; explore s; cbn;
    try tolerated_goal.
  cbv [try_except_else bind call]; rewrite calc_ppm_unfold.
  destruct (ppm_log (reducing _) _ _) as [r | e] eqn:P1;
    [destruct (ppm_log (nh3 _) _ _) as [r' | e] eqn:P2 |];
    try (apply ppm_log_raises in P1; subst e);
    try (apply ppm_log_raises in P2; subst e);
    explore s; cbn; reflexivity.
Qed.

Lemma bind_step {A B} (m : py A) (k : A -> py B) s a s1 :
  m s = (Return a, s1) -> bind m k s = k a s1.
Proof. intros E; unfold bind; rewrite E; reflexivity. Qed.

Lemma well_behaved_step ch factor d s :
  ch <> ch_temperature ->
  well_behaved d = true ->
  flags s tempActive = true ->
  exists s',
    get ch factor d s = (Return tt, s') /\ flags s' tempActive = true.
Proof.
  intros Hch H Ha.
  pose proof (well_behaved_returns ch factor d s Hch H) as R.
  pose proof (update_leaves_other_channels ch ch_temperature factor d s Hch)
    as (F & _).
  destruct (get ch factor d s) as [r s'] eqn:E. cbn [fst snd] in *.
  subst r. exists s'. split; [reflexivity |]. cbn in F. congruence.
Qed.

Lemma well_behaved_poll factor enviro d s :
  well_behaved d = true ->
  flags s tempActive = true ->
  exists s',
    poll factor enviro d s = (Return tt, s') /\ flags s' tempActive = true.
Proof.
  intros H Ha.
  assert (Ht : read_succeeds ch_temperature d = true).
  { unfold well_behaved in H.
    repeat (apply andb_prop in H; destruct H as [H ?]). exact H. }
  destruct (ok_step ch_temperature factor d s Ht Ha) as (s1 & E1 & F1 & _);
    [intros r Hr; discriminate Hr |].
  assert (A1 : flags s1 tempActive = true) by (rewrite F1; exact Ha).
  destruct (well_behaved_step ch_pressure factor d s1) as (s2 & E2 & A2);
    [discriminate | exact H | exact A1 |].
  destruct (well_behaved_step ch_humidity factor d s2) as (s3 & E3 & A3);
    [discriminate | exact H | exact A2 |].
  destruct (well_behaved_step ch_light factor d s3) as (s4 & E4 & A4);
    [discriminate | exact H | exact A3 |].
  unfold poll.
  rewrite (bind_step _ _ _ _ _ E1), (bind_step _ _ _ _ _ E2),
    (bind_step _ _ _ _ _ E3), (bind_step _ _ _ _ _ E4).
  destruct enviro; cbn [negb].
  - exists s4; split; [reflexivity | exact A4].
  - destruct (well_behaved_step ch_gas factor d s4) as (s5 & E5 & A5);
      [discriminate | exact H | exact A4 |].
    destruct (well_behaved_step ch_o2 factor d s5) as (s6 & E6 & A6);
      [discriminate | exact H | exact A5 |].
    destruct (well_behaved_step ch_particulates factor d s6)
      as (s7 & E7 & A7); [discriminate | exact H | exact A6 |].
    destruct (well_behaved_step ch_co2 factor d s7) as (s8 & E8 & A8);
      [discriminate | exact H | exact A7 |].
    rewrite (bind_step _ _ _ _ _ E5), (bind_step _ _ _ _ _ E6),
      (bind_step _ _ _ _ _ E7).
    exists s8; split; [exact E8 | exact A8].
Qed.

(** The poll loop runs through any number of cycles as long as, in each of
    them, the temperature read returns and every other driver call returns
    or raises an exception its update's [except] clause lists: faults of
    the seven other channels, sustained ones included, and failed gas
    conversions never end the loop. *)
Theorem main_loop_survives factor enviro ds s :
  flags s tempActive = true ->
  forallb well_behaved ds = true ->
  fst (main_loop factor enviro ds s) = Return tt.
Proof.
  revert s. induction ds as [| d ds IH]; intros s Ha H; [reflexivity |].
  cbn [forallb] in H. apply andb_prop in H; destruct H as [Hd Hds].
  destruct (well_behaved_poll factor enviro d s Hd Ha) as (s' & E & A).
  cbn [main_loop]. rewrite (bind_step _ _ _ _ _ E). exact (IH s' A Hds).
Qed.

Lemma main_loop_survives_witness :
  flags boot0 tempActive = true /\
  forallb well_behaved
    (repeat (mkDrivers (Return 20%R) (Raise OSError) (Raise RuntimeError)
               (Return 1%R) (Raise ValueError) (Return tt)
               (Return (mkGas 1 0 1)) (Raise OSError)
               (Raise pmsChecksumError) (Raise RuntimeError)) 8) = true /\
  fst (main_loop (Some 2%R) false
         (repeat (mkDrivers (Return 20%R) (Raise OSError) (Raise RuntimeError)
                    (Return 1%R) (Raise ValueError) (Return tt)
                    (Return (mkGas 1 0 1)) (Raise OSError)
                    (Raise pmsChecksumError) (Raise RuntimeError)) 8) boot0)
    = Return tt.
Proof.
  split; [reflexivity |]. split; [reflexivity |].
  apply main_loop_survives; reflexivity.
Defined.

(** ** Temperature compensation *)

(** A successful temperature read of an active channel never raises,
    whatever the factor: a factor of [None] or [0.0] switches the
    compensation off (the gauge gets the raw reading and the CPU
    temperature is not read), so the division by the factor is only
    reached with a divisor other than 0. *)
Theorem successful_temperature_read_returns factor raw s :
  flags s tempActive = true ->
  exists s',
    get_temperature factor (Return raw) s = (Return tt, s') /\
    (factor = None \/ factor = Some 0%R ->
     gauges s' TEMPERATURE = raw /\ cpu_reads s' = cpu_reads s).
Proof.
  intros Ha.
  destruct (truthy_cases factor) as [Hf | (f & -> & Hf)].
  - destruct (get_temperature_plain factor raw s Hf Ha)
      as (s' & E & G & R & _).
    exists s'; split; [exact E |]. intros _; split; assumption.
  - destruct (get_temperature_compensated f raw s Hf Ha) as (s' & E & _).
    exists s'; split; [exact E |].
    intros [H | H]; [discriminate H |].
    exfalso; apply Hf; congruence.
Qed.

Lemma successful_temperature_read_returns_witness :
  flags boot0 tempActive = true /\
  exists s',
    get_temperature (Some 0%R) (Return 21.5%R) boot0 = (Return tt, s') /\
    gauges s' TEMPERATURE = 21.5%R /\ cpu_reads s' = cpu_reads boot0.
Proof.
  split; [reflexivity |].
  destruct (successful_temperature_read_returns (Some 0%R) 21.5 boot0 eq_refl)
    as (s' & E & H).
  exists s'; split; [exact E |]. apply H; right; reflexivity.
Defined.

(** ** [str_to_bool] *)

Lemma lower_upper_ascii c : lower_ascii (upper_ascii c) = lower_ascii c.
Proof. destruct c as [[] [] [] [] [] [] [] []]; reflexivity. Qed.

Lemma lower_lower_ascii c : lower_ascii (lower_ascii c) = lower_ascii c.
Proof. destruct c as [[] [] [] [] [] [] [] []]; reflexivity. Qed.

Lemma lower_upper v : lower (upper v) = lower v.
Proof.
  induction v as [| c v IH]; [reflexivity |].
  cbn [lower upper]. rewrite lower_upper_ascii, IH. reflexivity.
Qed.

Lemma lower_lower v : lower (lower v) = lower v.
Proof.
  induction v as [| c v IH]; [reflexivity |].
  cbn [lower]. rewrite lower_lower_ascii, IH. reflexivity.
Qed.

Lemma length_lower v : String.length (lower v) = String.length v.
Proof.
  induction v as [| c v IH]; [reflexivity |]. cbn. rewrite IH. reflexivity.
Qed.

(** The case of the ASCII letters of its argument does not matter to
    [str_to_bool]: the argument, its upper-case form and its lower-case
    form are all accepted with the same value or all rejected. *)
Theorem str_to_bool_ignores_case v :
  str_to_bool (upper v) = str_to_bool v /\
  str_to_bool (lower v) = str_to_bool v.
Proof.
  unfold str_to_bool. rewrite lower_upper, lower_lower. split; reflexivity.
Qed.

Lemma str_in_length v l :
  str_in v l = true ->
  In (String.length v) (map String.length l).
Proof.
  unfold str_in. rewrite existsb_exists. intros (w & Hin & E).
  apply String.eqb_eq in E; subst w. apply in_map; exact Hin.
Qed.

(** The empty string and every string of more than five characters are
    rejected with [ValueError]. *)
Theorem str_to_bool_rejects_by_length v :
  String.length v = 0%nat \/ (5 < String.length v)%nat ->
  str_to_bool v = Raise ValueError.
Proof.
  intros H. unfold str_to_bool.
  repeat match goal with
         | |- context [str_in ?a ?b] =>
             let E := fresh "E" in
             destruct (str_in a b) eqn:E;
             [apply str_in_length in E; rewrite length_lower in E;
              cbn in E; exfalso; lia |]
         end.
  reflexivity.
Qed.

Lemma str_to_bool_rejects_by_length_witness :
  str_to_bool "" = Raise ValueError /\
  str_to_bool "enable" = Raise ValueError.
Proof.
  split.
  - apply str_to_bool_rejects_by_length; left; reflexivity.
  - apply str_to_bool_rejects_by_length; right; cbn; lia.
Defined.

(** ** [collect_all_data] *)

(** The snapshot [collect_all_data] returns has thirteen entries under
    thirteen different keys, one for every gauge of the module, each
    holding the current value of its gauge; taking it changes nothing. *)
Theorem collect_all_data_reports_every_gauge s :
  exists d,
    collect_all_data s = (Return d, s) /\
    List.length d = 13%nat /\
    NoDup (map fst d) /\
    forall g, dict_get d (key_of g) = Some (gauges s g).
Proof.
  unfold collect_all_data; cbn.
  eexists. split; [reflexivity |]. cbn.
  split; [reflexivity |]. split.
  - repeat (constructor;
            [cbn; intros H;
             repeat (destruct H as [H | H]; [discriminate H |]); exact H |]).
    constructor.
  - intros g; destruct g; reflexivity.
Qed.

(** ** The temperature update, as it is *)

(** With a factor other than 0 a successful read of an active temperature
    channel reads the CPU temperature exactly twice, [a] then [b], and
    reports [raw - (((4 * a + b) / 5 - raw) / factor)]: the window of five
    is four copies of the first read and the second read, both of this
    cycle, and nothing of an earlier cycle enters the value.  The health
    state and the sysfs source are left as they were. *)
Theorem compensation_uses_two_reads_of_the_cycle f raw s :
  f <> 0%R ->
  flags s tempActive = true ->
  let a := (IZR (thermal_zone0 s (cpu_reads s)) / 1000)%R in
  let b := (IZR (thermal_zone0 s (S (cpu_reads s))) / 1000)%R in
  exists s',
    get_temperature (Some f) (Return raw) s = (Return tt, s') /\
    gauges s' TEMPERATURE = (raw - ((4 * a + b) / 5 - raw) / f)%R /\
    cpu_reads s' = S (S (cpu_reads s)) /\
    health_of ch_temperature s' = health_of ch_temperature s.
Proof.
  intros Hf Ha a b.
  destruct (get_temperature_compensated f raw s Hf Ha)
    as (s' & E & G & R & _ & F & C & _).
  exists s'. split; [exact E |]. split; [exact G |]. split; [exact R |].
  unfold health_of; rewrite F, C; reflexivity.
Qed.

Lemma compensation_uses_two_reads_of_the_cycle_witness :
  exists s',
    get_temperature (Some 2%R) (Return 20%R) boot0 = (Return tt, s') /\
    gauges s' TEMPERATURE =
      (20 - ((4 * (IZR 45000 / 1000) + IZR 45000 / 1000) / 5 - 20) / 2)%R /\
    cpu_reads s' = 2%nat /\
    health_of ch_temperature s' = health_of ch_temperature boot0.
Proof.
  apply (compensation_uses_two_reads_of_the_cycle 2 20 boot0);
    [lra | reflexivity].
Defined.

Lemma temperature_never_resumes_witness :
  map (health ch_temperature)
      (run (get ch_temperature None (all_return (mkGas 1 1 1))) 4
           (deactivated ch_temperature boot0))
  = repeat (Return tt, false, MAXCOUNT, [0%R]) 4.
Proof.
  apply (temperature_never_resumes None (all_return (mkGas 1 1 1)) 4
           (deactivated ch_temperature boot0));
    [reflexivity | discriminate].
Defined.

Lemma main_loop_ended_by_temperature_fault_witness :
  fst (main_loop None false
         [all_raise RuntimeError; all_return (mkGas 1 1 1)] boot0)
  = Raise UnboundLocalError.
Proof.
  apply (main_loop_ended_by_temperature_fault None false RuntimeError
           (all_raise RuntimeError) [all_return (mkGas 1 1 1)] boot0);
    [right; left; reflexivity | reflexivity | reflexivity].
Defined.

(** ** The streak in the states the process reaches *)

(** The stores of [get_temperature] on a faulty read: the failure path
    runs before the unbound local is read. *)
Lemma get_temperature_fault_stores factor e s :
  isinstance e sensor_errors = true ->
  flags s tempActive = true ->
  exists s',
    get_temperature factor (Raise e) s = (Raise UnboundLocalError, s') /\
    stores s' =
      stores s ++
      (if counters s tempCount + 1 >=? MAXCOUNT
       then [(tempCount, counters s tempCount + 1); (tempCount, MAXCOUNT)]
       else [(tempCount, counters s tempCount + 1)]) /\
    counters s' tempCount =
      (if counters s tempCount + 1 >=? MAXCOUNT then MAXCOUNT
       else counters s tempCount + 1) /\
    flags s' tempActive = negb (counters s tempCount + 1 >=? MAXCOUNT).
Proof.
  intros He Ha. unfold get_temperature.
  unfold bind at 1, load_flag. rewrite Ha.
  unfold bind at 1. unfold try_except, call. unfold bind at 1. rewrite He.
  cbn [bind ret].
  destruct (truthy_cases factor) as [Hf | (f & -> & Hf)].
  - rewrite Hf. cbn.
    destruct (counters s tempCount + 1 >=? MAXCOUNT); cbn;
      (eexists; split; [reflexivity |]); cbn; rewrite <- ?app_assoc; frame.
  - unfold truthy. destruct (Req_dec_T f 0) as [|_]; [contradiction |].
    cbn -[truediv sum float_len repeat tl app].
    destruct (counters s tempCount + 1 >=? MAXCOUNT);
      cbn -[truediv sum float_len repeat tl app];
      unfold bind at 1; unfold bind at 1; unfold get_cpu_temperature at 1;
      cbn beta iota zeta;
      unfold bind at 1; unfold get_cpu_temperature at 1; cbn beta iota zeta;
      unfold bind at 1; rewrite window_average; cbn;
      (eexists; split; [reflexivity |]); cbn; rewrite <- ?app_assoc; frame.
Qed.

Lemma get_temperature_uncaught factor e s :
  isinstance e sensor_errors = false ->
  flags s tempActive = true ->
  get_temperature factor (Raise e) s = (Raise e, s).
Proof.
  intros He Ha. unfold get_temperature. unfold bind at 1, load_flag.
  rewrite Ha. unfold bind at 1. unfold try_except, call.
  unfold bind at 1. rewrite He. reflexivity.
Qed.

(** From the state every cycle of the process starts in, the temperature
    update stores nothing on a successful read and stores a streak of 1 on
    a faulty one. *)
Lemma temperature_fresh_stores factor r s :
  temperature_fresh s ->
  healthy ch_temperature (snd (get_temperature factor r s)) /\
  exists l,
    stores (snd (get_temperature factor r s)) = stores s ++ l /\
    Forall (store_in_range ch_temperature) l.
Proof.
  intros [Ha Hc]. unfold healthy, in_range, store_in_range.
  cbn [active_of count_of].
  destruct r as [raw | e].
  - assert (Hs : exists s',
               get_temperature factor (Return raw) s = (Return tt, s') /\
               (forall f, flags s' f = flags s f) /\
               (forall c, counters s' c = counters s c) /\
               stores s' = stores s).
    { destruct (truthy_cases factor) as [Hf | (f & -> & Hf)].
      - destruct (get_temperature_plain factor raw s Hf Ha)
          as (s' & E & _ & _ & F & C & St).
        exists s'; auto.
      - destruct (get_temperature_compensated f raw s Hf Ha)
          as (s' & E & _ & _ & _ & F & C & St).
        exists s'; auto. }
    destruct Hs as (s' & E & F & C & St). rewrite E; cbn [snd].
    rewrite F, C, St, Hc. unfold MINCOUNT, MAXCOUNT. split.
    + split; [lia | intros _; lia].
    + exists []. split; [symmetry; apply app_nil_r | constructor].
  - destruct (isinstance e sensor_errors) eqn:He.
    + destruct (get_temperature_fault_stores factor e s He Ha)
        as (s' & E & St & C & A).
      rewrite E; cbn [snd]. rewrite St, C, A, Hc.
      unfold MINCOUNT, MAXCOUNT; cbn. split.
      * split; [lia | intros _; lia].
      * eexists. split; [reflexivity |].
        constructor; [| constructor]. cbn.
        split; [reflexivity | unfold in_range, MINCOUNT, MAXCOUNT; lia].
    + rewrite (get_temperature_uncaught factor e s He Ha); cbn [snd].
      rewrite Hc. unfold MINCOUNT, MAXCOUNT. split.
      * split; [lia | intros _; lia].
      * exists []. split; [symmetry; apply app_nil_r | constructor].
Qed.

Lemma reachable_healthy factor enviro s :
  reachable factor enviro s -> forall ch, healthy ch s.
Proof.
  induction 1 as [d th s H | d s s' Hr IH H].
  - exact (startup_healthy d th s H).
  - exact (poll_healthy factor enviro d s s'
             (reachable_temperature_fresh factor enviro s Hr) H IH).
Qed.

Lemma bounded_stores_refl s : bounded_stores s s.
Proof. exists []. split; [symmetry; apply app_nil_r | constructor]. Qed.

Lemma bounded_stores_trans s1 s2 s3 :
  bounded_stores s1 s2 -> bounded_stores s2 s3 -> bounded_stores s1 s3.
Proof.
  intros (l1 & E1 & F1) (l2 & E2 & F2). exists (l1 ++ l2). split.
  - rewrite E2, E1, app_assoc. reflexivity.
  - apply Forall_app; split; assumption.
Qed.

Lemma bind_bounded {A B} (m : py A) (k : A -> py B) s :
  cycle_invariant s ->
  bounded_stores s (snd (m s)) ->
  (forall a s1, m s = (Return a, s1) -> cycle_invariant s1) ->
  (forall a s1, cycle_invariant s1 -> bounded_stores s1 (snd (k a s1))) ->
  bounded_stores s (snd (bind m k s)).
Proof.
  intros HI Hm Hinv Hk. unfold bind.
  destruct (m s) as [[a | e] s1] eqn:E; cbn [snd] in *; [| exact Hm].
  exact (bounded_stores_trans s s1 _ Hm (Hk a s1 (Hinv a s1 eq_refl))).
Qed.

Lemma step_bounded ch factor d s :
  cycle_invariant s ->
  bounded_stores s (snd (get ch factor d s)) /\
  (forall s1, get ch factor d s = (Return tt, s1) -> cycle_invariant s1).
Proof.
  intros [Hf Hh].
  destruct (channel_eq_dec ch ch_temperature) as [-> | Hch].
  - cbn [get].
    destruct (temperature_fresh_stores factor (bme280_get_temperature d) s Hf)
      as (_ & l & El & Fl).
    split.
    + exists l. split; [exact El |].
      eapply Forall_impl; [| exact Fl]. intros cv [_ H]; exact H.
    + intros s1 E. destruct Hf as [Ha Hc].
      destruct (get_temperature_returns _ _ _ _ Ha E) as (_ & F & C).
      split.
      * split; [rewrite F | rewrite C]; assumption.
      * intros ch; specialize (Hh ch); unfold healthy in *.
        rewrite F, C; exact Hh.
  - destruct (health_preserved ch factor d s Hch (Hh ch))
      as (_ & l & El & Fl).
    split.
    + exists l. split; [exact El |].
      eapply Forall_impl; [| exact Fl]. intros cv [_ H]; exact H.
    + intros s1 E. split.
      * exact (step_temperature_fresh factor ch d s s1 Hch Hf E).
      * exact (step_healthy ch factor d s s1 Hch E Hh).
Qed.

Lemma poll_bounded factor enviro d s :
  cycle_invariant s ->
  bounded_stores s (snd (poll factor enviro d s)).
Proof.
  intros HI. unfold poll.
  pose proof (fun ch s0 H => proj1 (step_bounded ch factor d s0 H)) as B.
  pose proof (fun ch s0 H => proj2 (step_bounded ch factor d s0 H)) as I.
  apply bind_bounded;
    [exact HI | exact (B ch_temperature s HI)
    | intros [] s1; exact (I ch_temperature s HI s1) |].
  intros _ s1 H1. apply bind_bounded;
    [exact H1 | exact (B ch_pressure s1 H1)
    | intros [] s2; exact (I ch_pressure s1 H1 s2) |].
  intros _ s2 H2. apply bind_bounded;
    [exact H2 | exact (B ch_humidity s2 H2)
    | intros [] s3; exact (I ch_humidity s2 H2 s3) |].
  intros _ s3 H3. apply bind_bounded;
    [exact H3 | exact (B ch_light s3 H3)
    | intros [] s4; exact (I ch_light s3 H3 s4) |].
  intros _ s4 H4. destruct enviro; cbn [negb];
    [apply bounded_stores_refl |].
  apply bind_bounded;
    [exact H4 | exact (B ch_gas s4 H4)
    | intros [] s5; exact (I ch_gas s4 H4 s5) |].
  intros _ s5 H5. apply bind_bounded;
    [exact H5 | exact (B ch_o2 s5 H5)
    | intros [] s6; exact (I ch_o2 s5 H5 s6) |].
  intros _ s6 H6. apply bind_bounded;
    [exact H6 | exact (B ch_particulates s6 H6)
    | intros [] s7; exact (I ch_particulates s6 H6 s7) |].
  intros _ s7 H7. exact (B ch_co2 s7 H7).
Qed.

Lemma startup_bounded d th :
  Forall (fun cv => in_range (snd cv)) (stores (snd (startup d (boot th)))).
Proof.
  destruct d as [[[] | e1] [[] | e2] [[] | e3] [[] | e4]]; cbn;
    repeat constructor; cbn; discriminate.
Qed.

(** C9.  In every state in which a poll cycle of the process can start,
    the streak of every channel is within [[MINCOUNT, MAXCOUNT]]; from such
    a state the update of any channel, on any driver outcome (success,
    handled fault, unhandled exception, inactive path), stores to its
    counter only values within the bounds, intermediate stores included,
    and leaves the streak within the bounds; the same holds for every store
    of a whole pass of the loop and for the stores of start-up.  (The
    inactive path of [get_temperature], which would store [MAXCOUNT + 1],
    is never entered: the temperature channel is active with a streak of 0
    whenever a cycle starts.) *)
Theorem streak_within_bounds_when_reachable factor enviro s :
  reachable factor enviro s ->
  (forall ch, in_range (counters s (count_of ch))) /\
  (forall ch fct d,
      exists l,
        stores (snd (get ch fct d s)) = stores s ++ l /\
        Forall (store_in_range ch) l /\
        in_range (counters (snd (get ch fct d s)) (count_of ch))) /\
  (forall d,
      exists l,
        stores (snd (poll factor enviro d s)) = stores s ++ l /\
        Forall (fun cv => in_range (snd cv)) l) /\
  (forall dv th,
      Forall (fun cv => in_range (snd cv))
             (stores (snd (startup dv (boot th))))).
Proof.
  intros Hr.
  pose proof (reachable_temperature_fresh factor enviro s Hr) as Hf.
  pose proof (reachable_healthy factor enviro s Hr) as Hh.
  split; [intros ch; exact (proj1 (Hh ch)) |].
  split; [| split].
  - intros ch fct d.
    destruct (channel_eq_dec ch ch_temperature) as [-> | Hch].
    + destruct (temperature_fresh_stores fct (bme280_get_temperature d) s Hf)
        as ([Hin _] & l & El & Fl).
      exists l. split; [exact El |]. split; [exact Fl | exact Hin].
    + destruct (health_preserved ch fct d s Hch (Hh ch))
        as ([Hin _] & l & El & Fl).
      exists l. split; [exact El |]. split; [exact Fl | exact Hin].
  - intros d. exact (poll_bounded factor enviro d s (conj Hf Hh)).
  - exact startup_bounded.
Qed.

Lemma streak_within_bounds_when_reachable_witness :
  reachable None false
    (snd (startup (mkDevices (Raise OSError) (Return tt) (Raise OSError)
                     (Raise OSError)) boot0)) /\
  forall ch,
    in_range
      (counters
         (snd (startup (mkDevices (Raise OSError) (Return tt) (Raise OSError)
                          (Raise OSError)) boot0))
         (count_of ch)).
Proof.
  assert (H : reachable None false
                (snd (startup (mkDevices (Raise OSError) (Return tt)
                                 (Raise OSError) (Raise OSError)) boot0)))
    by (apply (reach_startup None false
                 (mkDevices (Raise OSError) (Return tt) (Raise OSError)
                    (Raise OSError)) (fun _ => 45000));
        cbn; reflexivity).
  split; [exact H |].
  exact (proj1 (streak_within_bounds_when_reachable None false _ H)).
Defined.
